(** * TradPredict: the scoring and single-period backtest of [model.py]

    A shallow embedding of [DRLTradingModel] (src/model.py) and of the
    cached constructor [instantiate_model] (src/app.py), followed by the
    properties of the data preparer and of the signal and backtest engine.

    - Numbers.  pandas columns and Python arithmetic work on binary64
      values.  [float64] is the binary64 format of the Standard Library's
      [SpecFloat]: 53 bits of precision, rounding to nearest with ties to
      even, gradual underflow, overflow to the infinities, signed zeros
      and one NaN.  The operations are the operations of [SpecFloat], so
      that a product, a quotient or a sum is the rounded one that the
      program computes.  A sum over a column is numpy's pairwise sum.
    - Objects.  A [DataFrame] is a mutable object: frames live in a heap
      and are passed by reference, so that the in-place column assignments
      of [_process_data] and the [copy] of [instantiate_model] are visible.
    - Control.  Python exceptions are the [Raise] results of a small
      state-and-exception monad. *)

From Stdlib Require Import QArith Qpower Qround ZArith Ascii String Lia SpecFloat.
From stdpp Require Import base option list strings gmap numbers sorting.

Set Default Proof Using "Type".

(** ** binary64 *)

Module Float64.

Definition prec : Z := 53.
Definition emax : Z := 1024.

Definition float64 : Type := spec_float.

Abbreviation NaN := S754_nan.
Abbreviation PInf := (S754_infinity false).
Abbreviation NInf := (S754_infinity true).

Global Instance float64_eq_dec : EqDecision float64.
Proof. solve_decision. Defined.

Global Instance float64_inhabited : Inhabited float64 := populate NaN.

Definition fopp (x : float64) : float64 := SFopp x.
Definition fabs (x : float64) : float64 := SFabs x.
Definition fadd (x y : float64) : float64 := SFadd prec emax x y.
Definition fsub (x y : float64) : float64 := SFsub prec emax x y.
Definition fmul (x y : float64) : float64 := SFmul prec emax x y.

(** numpy division: no exception, [x / 0] is an infinity of the sign of
    the quotient, and [0 / 0] is NaN. *)
Definition fdiv (x y : float64) : float64 := SFdiv prec emax x y.

(** [x < y]; false as soon as one side is NaN. *)
Definition fltb (x y : float64) : bool := SFltb x y.

Definition fgtb (x y : float64) : bool := fltb y x.

(** [x <= y] and [x == y], used in statements only (the source compares
    strictly). *)
Definition fleb (x y : float64) : bool := SFleb x y.
Definition feqb (x y : float64) : bool := SFeqb x y.

(** The float of a Python [int]: the nearest binary64. *)
Definition of_Z (n : Z) : float64 := binary_normalize prec emax n 0 false.

(** A decimal literal of the source, [lit 0.15] for [0.15]: the binary64
    nearest to the decimal.  The literal is given as a fraction of two
    integers; when both are below [2^53], as they are for the literals of
    the source, they are binary64 numbers and their rounded quotient is
    the nearest binary64 to the fraction. *)
Definition lit (q : Q) : float64 := fdiv (of_Z (Qnum q)) (of_Z (Zpos (Qden q))).
Global Arguments lit q%_Q.

(** The integer part of a finite binary64, toward zero. *)
Definition trunc (x : float64) : Z :=
  match x with
  | S754_finite s m e =>
      let n := match e with
               | Zneg p => Z.shiftr (Zpos m) (Zpos p)
               | _ => Z.shiftl (Zpos m) e
               end in
      if s then (- n)%Z else n
  | _ => 0%Z
  end.

(** The number that a binary64 stands for, when it stands for one. *)
Definition value (x : float64) : option Q :=
  match x with
  | S754_zero _ => Some 0%Q
  | S754_finite s m e =>
      Some (inject_Z (if s then Zneg m else Zpos m) * Qpower 2 e)%Q
  | _ => None
  end.

(** Rounding of a rational toward minus infinity, for statements about
    exact quotients. *)
Definition floor (q : Q) : Z := Qfloor q.

Definition is_zero (x : float64) : bool :=
  match x with
  | S754_zero _ => true
  | _ => false
  end.

Definition is_finite (x : float64) : bool :=
  match x with
  | S754_zero _ | S754_finite _ _ _ => true
  | _ => false
  end.

(** The sign carried by a value: [signed s x] when [x] is a zero, an
    infinity or a finite number with sign bit [s], or is NaN. *)
Definition signed (s : bool) (x : float64) : Prop :=
  x = S754_zero s ∨ x = S754_infinity s ∨ x = S754_nan ∨
  ∃ m e, x = S754_finite s m e.

Global Arguments lit : simpl never.
Global Arguments of_Z : simpl never.
Global Arguments fopp : simpl never.
Global Arguments fabs : simpl never.
Global Arguments fadd : simpl never.
Global Arguments fsub : simpl never.
Global Arguments fmul : simpl never.
Global Arguments fdiv : simpl never.
Global Arguments fltb : simpl never.
Global Arguments fgtb : simpl never.
Global Arguments fleb : simpl never.
Global Arguments feqb : simpl never.

End Float64.

Export Float64.

Declare Scope float_scope.
Delimit Scope float_scope with float.
Bind Scope float_scope with float64.
Infix "+" := fadd : float_scope.
Infix "-" := fsub : float_scope.
Infix "*" := fmul : float_scope.
Infix "/" := fdiv : float_scope.
Notation "- x" := (fopp x) : float_scope.
Infix "<?" := fltb : float_scope.
Infix ">?" := fgtb (at level 70, no associativity) : float_scope.
Infix "<=?" := fleb : float_scope.

(** ** Exceptions, the heap of frames and the monad of Python code *)

Inductive exn : Type :=
  | KeyError (key : string)
  | IndexError
  | TypeError
  | ValueError
  | OverflowError.

Inductive res (A : Type) : Type :=
  | Return (a : A)
  | Raise (e : exn).
Global Arguments Return {A} a.
Global Arguments Raise {A} e.

Global Instance res_ret : MRet res := λ A a, Return a.
Global Instance res_bind : MBind res := λ A B f m,
  match m with
  | Return a => f a
  | Raise e => Raise e
  end.

(** An [option] read as a result that raises [e] on [None]. *)
Definition or_raise {A} (e : exn) (o : option A) : res A :=
  match o with
  | Some a => Return a
  | None => Raise e
  end.

Fixpoint mapM_res {A B} (f : A → res B) (l : list A) : res (list B) :=
  match l with
  | [] => Return []
  | a :: l' => b ← f a; bs ← mapM_res f l'; mret (b :: bs)
  end.

(** [int(x)] of a numpy float: truncation toward zero, [OverflowError] on
    an infinity and [ValueError] on NaN. *)
Definition int (x : float64) : res Z :=
  match x with
  | S754_zero _ | S754_finite _ _ _ => Return (trunc x)
  | S754_infinity _ => Raise OverflowError
  | S754_nan => Raise ValueError
  end.

(** ** pandas: series, frames, rows *)

Module Pandas.

(** A column is either numeric ([float64] or [int64] dtype, its values
    read as [float64]) or of dtype [object] holding the strings that
    [read_csv] leaves when a cell is not a plain number. *)
Inductive Series : Type :=
  | SFloat (values : list float64)
  | SObj (values : list string).

Global Instance Series_eq_dec : EqDecision Series.
Proof. solve_decision. Defined.

Record DataFrame : Type := mkDataFrame {
  index : nat;                      (* number of rows *)
  columns : gmap string Series
}.

Global Instance DataFrame_inhabited : Inhabited DataFrame :=
  populate (mkDataFrame 0 ∅).

Inductive cell : Type :=
  | CNum (x : float64)
  | CStr (s : string).

(** A row taken out of a frame ([df.iloc[i]], or the argument of the
    function given to [df.apply(..., axis=1)]): column name to cell. *)
Abbreviation Row := (gmap string cell).

Definition size (s : Series) : nat :=
  match s with
  | SFloat l => length l
  | SObj l => length l
  end.

Definition iat (s : Series) (i : nat) : option cell :=
  match s with
  | SFloat l => CNum <$> l !! i
  | SObj l => CStr <$> l !! i
  end.

Definition row_at (d : DataFrame) (i : nat) : Row :=
  omap (λ s, iat s i) (columns d).

Definition rows (d : DataFrame) : list Row :=
  row_at d <$> seq 0 (index d).

(** [d[col] = s] on the value of a frame. *)
Definition set_col (col : string) (s : Series) (d : DataFrame) : DataFrame :=
  mkDataFrame (index d) (<[col := s]> (columns d)).

(** [row[key]] used as a number: [KeyError] when the column is absent,
    [TypeError] when arithmetic meets a string. *)
Definition num (row : Row) (key : string) : res float64 :=
  match row !! key with
  | None => Raise (KeyError key)
  | Some (CNum x) => Return x
  | Some (CStr _) => Raise TypeError
  end.

(** [row[key]] without any use of the value. *)
Definition item (row : Row) (key : string) : res cell :=
  or_raise (KeyError key) (row !! key).

(** [s.str.replace(',', '', regex=False)] on one string. *)
Fixpoint remove_commas (s : string) : string :=
  match s with
  | EmptyString => EmptyString
  | String c s' =>
      if Ascii.eqb c ","%char then remove_commas s' else String c (remove_commas s')
  end.


Definition is_nan (x : float64) : bool :=
  match x with
  | S754_nan => true
  | _ => false
  end.

(** The sum of a float64 array as numpy takes it.  Fewer than eight
    values are added in sequence.  Up to 128 values are added into eight
    running sums, one value in eight to each; the eight sums are then
    added in pairs and the values left over are added in sequence.  A
    longer array is cut in two, the first part being a multiple of eight
    long, and the sums of the two parts are added. *)
Fixpoint block_loop (r0 r1 r2 r3 r4 r5 r6 r7 : float64) (l : list float64)
  : float64 :=
  match l with
  | a0 :: a1 :: a2 :: a3 :: a4 :: a5 :: a6 :: a7 :: l' =>
      block_loop (r0 + a0) (r1 + a1) (r2 + a2) (r3 + a3)
                 (r4 + a4) (r5 + a5) (r6 + a6) (r7 + a7) l'
  | _ =>
      foldl fadd (((r0 + r1) + (r2 + r3)) + ((r4 + r5) + (r6 + r7))) l
  end%float.

Definition block_sum (l : list float64) : float64 :=
  match l with
  | a0 :: a1 :: a2 :: a3 :: a4 :: a5 :: a6 :: a7 :: l' =>
      block_loop a0 a1 a2 a3 a4 a5 a6 a7 l'
  | _ => foldl fadd (lit 0) l
  end.

(** [fuel] bounds the number of cuts; the length of the array is
    enough (lemma [pairwise_sum_fuel]). *)
Fixpoint pairwise_sum (fuel : nat) (l : list float64) : float64 :=
  match fuel with
  | O => block_sum l
  | S fuel' =>
      let n := length l in
      if (n <=? 128)%nat then block_sum l
      else
        let n2 := (n / 2 - (n / 2) mod 8)%nat in
        (pairwise_sum fuel' (take n2 l) + pairwise_sum fuel' (drop n2 l))%float
  end.

(** [values.sum()]: the reduction starts from 0 and adds the pairwise
    sum to it. *)
Definition fsum (l : list float64) : float64 :=
  (lit 0 + pairwise_sum (length l) l)%float.

(** [s.mean()] with the default [skipna=True]: NaN entries count as 0 in
    the sum and are left out of the count, and a mean over no value is NaN
    (the quotient of 0 by 0).  A column of strings cannot be averaged. *)
Definition mean (s : Series) : res float64 :=
  match s with
  | SFloat l =>
      let count := length (filter (λ x, is_nan x = false) l) in
      let values := (λ x, if is_nan x then lit 0 else x) <$> l in
      Return (fsum values / of_Z (Z.of_nat count))%float
  | SObj [] => Return NaN
  | SObj (_ :: _) => Raise TypeError
  end.

(** [s / x] for a scalar [x], element by element. *)
Definition div_scalar (s : Series) (x : float64) : res Series :=
  match s with
  | SFloat l => Return (SFloat ((λ v, v / x)%float <$> l))
  | SObj [] => Return (SObj [])
  | SObj (_ :: _) => Raise TypeError
  end.

(** [symbol in s.values] for a string [symbol]. *)
Definition contains (s : Series) (symbol : string) : bool :=
  match s with
  | SObj l => bool_decide (symbol ∈ l)
  | SFloat _ => false
  end.

(** Position of the first [True] of the mask [s == symbol]. *)
Fixpoint index_of (symbol : string) (l : list string) : option nat :=
  match l with
  | [] => None
  | x :: l' => if decide (x = symbol) then Some 0 else S <$> index_of symbol l'
  end.

Definition first_match (s : Series) (symbol : string) : option nat :=
  match s with
  | SObj l => index_of symbol l
  | SFloat _ => None
  end.

End Pandas.

Export Pandas.

(** ** The heap *)

Abbreviation loc := positive.
Abbreviation heap := (gmap loc DataFrame).

Definition M (A : Type) : Type := heap → res A * heap.

Global Instance M_ret : MRet M := λ A a h, (Return a, h).
Global Instance M_bind : MBind M := λ A B f m h,
  match m h with
  | (Return a, h') => f a h'
  | (Raise e, h') => (Raise e, h')
  end.

(** A pure, possibly raising, computation inside heap code. *)
Definition lift {A} (r : res A) : M A := λ h, (r, h).

(** [df[col]] *)
Definition getitem (df : loc) (col : string) : M Series := λ h,
  (or_raise (KeyError col) (columns (h !!! df) !! col), h).

(** [df[col] = s]: the frame that [df] refers to changes in place. *)
Definition setitem (df : loc) (col : string) (s : Series) : M unit := λ h,
  (Return (), <[df := set_col col s (h !!! df)]> h).

(** [df.copy()]: a new frame with the same contents. *)
Definition copy (df : loc) : M loc := λ h,
  let l := fresh (dom h) in (Return l, <[l := h !!! df]> h).

(** The frame itself, for row-wise reads. *)
Definition deref (df : loc) : M DataFrame := λ h, (Return (h !!! df), h).

(** [for x in l: body(x)] *)
Fixpoint for_each {A} (l : list A) (body : A → M unit) : M unit :=
  match l with
  | [] => mret ()
  | x :: l' => body x;; for_each l' body
  end.

(** ** model.py *)

Inductive signal : Type := BUY | SELL | HOLD.

Global Instance signal_eq_dec : EqDecision signal.
Proof. solve_decision. Defined.

(** The object built by [DRLTradingModel.__init__]: [df] is a reference. *)
Record DRLTradingModel : Type := mkModel {
  df : loc;
  initial_capital : float64;
  risk_free_rate : float64
}.

(** The [metrics] dictionary, one field per key. *)
Record Metrics : Type := mkMetrics {
  Symbol : string;
  LTP : cell;
  Chng30d : float64;              (* '30d % Chng' *)
  Chng365d : float64;             (* '365d % Chng' *)
  DRL_Score : float64;
  Final_Signal : signal;
  Initial_Capital : float64;
  Final_Capital : float64;
  Cumulative_Return : float64;
  Sharpe_Ratio : float64;
  Simulated_Profit : float64
}.

(** The lines of [action_log].  The f-strings of the source are kept as
    their template and the values they print. *)
Inductive log_line : Type :=
  | Triggered (s : signal) (drl_score : float64)
      (* "**Autonomous <s> Signal** triggered by DRL Score: <drl_score>." *)
  | Purchased (shares_to_buy : Z) (investment : float64)
      (* "Shares Purchased: <shares_to_buy>. Initial Investment: <investment>." *)
  | Profit (simulated_profit : float64)
      (* "Simulated Profit (using 30d return as proxy): <simulated_profit>." *)
  | Text (s : string).

(** Second component of the returned pair: the message that goes with
    [None], or the tuple of log lines. *)
Inductive action_log : Type :=
  | Message (s : string)
  | Lines (l : list log_line).

Definition cols_to_clean : list string :=
  ["Open"; "High"; "Low"; "LTP"; "Turnover (crs.)"; "52w H"; "52w L"].

(** The columns that [_process_data] reads. *)
Definition columns_read : list string :=
  cols_to_clean ++ ["30 d % chng"; "365 d % chng"; "Volume (lacs)"].

(** The function given to [df.apply(..., axis=1)] at line 33: the test
    [abs(x['365 d % chng']) > 0.01] is evaluated first. *)
Definition momentum_score (x : Row) : res float64 :=
  c ← num x "365 d % chng";
  if (fabs c >? lit 0.01)%float then
    n ← num x "30 d % chng";
    d ← num x "365 d % chng";
    mret (n / d)%float
  else mret (lit 0).

(** [df.apply(f, axis=1)] for an [f] that returns a number. *)
Definition apply_rows (df : loc) (f : Row → res float64) : M Series :=
  d ← deref df;
  xs ← lift (mapM_res f (rows d));
  mret (SFloat xs).

(** [_generate_signal] *)
Definition _generate_signal (row : Row) : res signal :=
  c365 ← num row "365 d % chng";
  c30 ← num row "30 d % chng";
  vr ← num row "Volume_Ratio";
  let score :=
    (lit 0.5 * c365 / lit 100 +
     lit 0.3 * c30 / lit 100 +
     lit 0.2 * (vr - lit 1))%float in
  if (score >? lit 0.15)%float then mret BUY
  else if (score <? lit (-0.15))%float then mret SELL
  else mret HOLD.

(** [for col in cols: d = step(col, d)] on the value of a frame. *)
Fixpoint fold_cols (step : string → DataFrame → res DataFrame)
    (cols : list string) (d : DataFrame) : res DataFrame :=
  match cols with
  | [] => mret d
  | col :: cols' => d' ← step col d; fold_cols step cols' d'
  end.

(** ** The formulas as the specification writes them

    The specification groups the score differently from the source and
    takes the number of shares as the floor of an exact quotient.  These
    are its formulas, for comparison with what the source computes. *)

Module Spec.

(** [0.5*(change365d/100) + 0.3*(change30d/100) + 0.2*(volumeRatio - 1)],
    on binary64. *)
Definition score (change365d change30d volumeRatio : float64) : float64 :=
  (lit 0.5 * (change365d / lit 100) +
   lit 0.3 * (change30d / lit 100) +
   lit 0.2 * (volumeRatio - lit 1))%float.

(** [floor(0.2*initialCapital / ltp)], on the numbers themselves. *)
Definition sharesToBuy (initialCapital ltp : Q) : Z :=
  floor (0.2 * initialCapital / ltp)%Q.

End Spec.

Section Model.

(** Python's [float(s)] for a string [s]; [None] stands for the
    [ValueError] of a string that is not a number. *)
Variable py_float : string → option float64.

(** [.astype(float)] on a column of strings. *)
Definition astype_float (l : list string) : res (list float64) :=
  mapM_res (λ s, or_raise ValueError (py_float s)) l.

(** [_process_data]: every assignment is made on the frame passed in, and
    that same reference is returned. *)
Definition _process_data (df : loc) : M loc :=
  for_each cols_to_clean (λ col,
    s ← getitem df col;
    match s with
    | SObj l =>                              (* dtype == 'object' *)
        xs ← lift (astype_float (remove_commas <$> l));
        setitem df col (SFloat xs)
    | SFloat _ => mret ()
    end);;
  m ← apply_rows df momentum_score;
  setitem df "Momentum_Score" m;;
  v ← getitem df "Volume (lacs)";
  w ← getitem df "Volume (lacs)";
  mu ← lift (mean w);
  r ← lift (div_scalar v mu);
  setitem df "Volume_Ratio" r;;
  mret df.

(** [DRLTradingModel.__init__] *)
Definition __init__ (stock_df : loc) (initial_capital : float64)
  : M DRLTradingModel :=
  d ← _process_data stock_df;
  mret (mkModel d initial_capital (lit 0.05 / lit 252)%float).

(** [run_policy_and_backtest].  [stock_data] is a value taken out of the
    frame, so the repeated reads [stock_data['30 d % chng']] and
    [stock_data['365 d % chng']] of the source are the [c30] and [c365]
    read once for the score. *)
Definition run_policy_and_backtest (self : DRLTradingModel) (symbol : string)
  : M (option Metrics * action_log) :=
  symbols ← getitem (df self) "Symbol";
  if negb (contains symbols symbol) then
    mret (None, Message "Stock symbol not found in data.")
  else
    mask ← getitem (df self) "Symbol";
    d ← deref (df self);
    i ← lift (or_raise IndexError (first_match mask symbol));
    let stock_data := row_at d i in
    signal ← lift (_generate_signal stock_data);
    c365 ← lift (num stock_data "365 d % chng");
    c30 ← lift (num stock_data "30 d % chng");
    vr ← lift (num stock_data "Volume_Ratio");
    let drl_score :=
      (lit 0.5 * c365 / lit 100 +
       lit 0.3 * c30 / lit 100 +
       lit 0.2 * (vr - lit 1))%float in
    ltp ← lift (item stock_data "LTP");
    let hypothetical_return_pct := (c30 / lit 100)%float in
    let simulated_profit := lit 0 in
    let cumulative_return := lit 0 in
    let final_capital := initial_capital self in
    '(simulated_profit, cumulative_return, final_capital, action_log) ←
      match signal with
      | BUY =>
          p ← lift (match ltp with CNum p => Return p | CStr _ => Raise TypeError end);
          shares_to_buy ← lift (int (initial_capital self * lit 0.2 / p)%float);
          let investment := (of_Z shares_to_buy * p)%float in
          let simulated_profit := (investment * hypothetical_return_pct)%float in
          let final_capital := (initial_capital self + simulated_profit)%float in
          let cumulative_return := (simulated_profit / initial_capital self)%float in
          mret (simulated_profit, cumulative_return, final_capital,
                [Triggered BUY drl_score;
                 Purchased shares_to_buy investment;
                 Profit simulated_profit])
      | SELL =>
          if (hypothetical_return_pct <? lit 0)%float && (drl_score <? lit 0)%float then
            mret (simulated_profit, cumulative_return, final_capital,
                  [Triggered SELL drl_score;
                   Text "Decision: HOLD CASH. **Risk Managed: Avoided a potential loss**."])
          else
            mret (simulated_profit, cumulative_return, final_capital,
                  [Triggered SELL drl_score;
                   Text "Decision: HOLD CASH (Neutral Stance)."])
      | HOLD =>
          mret (simulated_profit, cumulative_return, final_capital,
                [Triggered HOLD drl_score;
                 Text "Decision: HOLD CASH (Waiting for clearer trend)."])
      end;
    let sharpe_ratio := ((cumulative_return - risk_free_rate self) / lit 0.1)%float in
    let metrics := {|
      Symbol := symbol;
      LTP := ltp;
      Chng30d := c30;
      Chng365d := c365;
      DRL_Score := drl_score;
      Final_Signal := signal;
      Initial_Capital := initial_capital self;
      Final_Capital := final_capital;
      Cumulative_Return := cumulative_return;
      Sharpe_Ratio := if (cumulative_return >? lit 0)%float then sharpe_ratio else lit 0;
      Simulated_Profit := simulated_profit
    |} in
    mret (Some metrics, Lines action_log).

(** ** app.py *)

(** [instantiate_model]: the model is built on a copy of [data]. *)
Definition instantiate_model (data : loc) (initial_capital : float64)
  : M DRLTradingModel :=
  d ← copy data;
  __init__ d initial_capital.

(** ** The Dataset as a value

    [prepare d] is the frame that [_process_data] leaves behind its
    argument when it finds the frame [d] there, computed without the heap
    (lemma [_process_data_prepare] relates the two).  It is the
    [prepare(rawRows) -> Dataset] of the specification. *)

Definition clean_col (col : string) (d : DataFrame) : res DataFrame :=
  s ← or_raise (KeyError col) (columns d !! col);
  match s with
  | SObj l =>
      xs ← astype_float (remove_commas <$> l);
      mret (set_col col (SFloat xs) d)
  | SFloat _ => mret d
  end.

Definition clean_cols : list string → DataFrame → res DataFrame :=
  fold_cols clean_col.

Definition prepare (d : DataFrame) : res DataFrame :=
  d1 ← clean_cols cols_to_clean d;
  ms ← mapM_res momentum_score (rows d1);
  let d2 := set_col "Momentum_Score" (SFloat ms) d1 in
  v ← or_raise (KeyError "Volume (lacs)") (columns d2 !! "Volume (lacs)");
  mu ← mean v;
  r ← div_scalar v mu;
  mret (set_col "Volume_Ratio" r d2).

End Model.

(** [m] leaves the frame at [l] as it found it, whatever its outcome. *)
Definition preserves {A} (l : loc) (m : M A) : Prop :=
  ∀ h, (m h).2 !! l = h !! l.

(** ** A concrete reader of decimal literals and a sample snapshot

    [parse_decimal] reads plain literals (optional sign, digits, optional
    fraction) as the rounded quotient of the digits by the power of ten,
    which is Python's [float] of the text when both are below [2^53]; it
    instantiates [py_float] in the examples. *)

Module Sample.

Definition digit_of (c : ascii) : option Z :=
  let n := nat_of_ascii c in
  if (48 <=? n)%nat && (n <=? 57)%nat then Some (Z.of_nat (n - 48)) else None.

Fixpoint parse_digits (s : string) (acc : Z) : option Z :=
  match s with
  | EmptyString => Some acc
  | String c s' => d ← digit_of c; parse_digits s' (10 * acc + d)%Z
  end.

(** The text before the first dot, and the text after it if there is one. *)
Fixpoint split_dot (s : string) : string * option string :=
  match s with
  | EmptyString => (EmptyString, None)
  | String c s' =>
      if Ascii.eqb c "."%char then (EmptyString, Some s')
      else let '(a, b) := split_dot s' in (String c a, b)
  end.

Definition parse_unsigned (s : string) : option float64 :=
  let '(i, f) := split_dot s in
  let f := default EmptyString f in
  if decide (String.length i + String.length f = 0)%nat then None
  else
    n ← parse_digits (i +:+ f) 0;
    Some (of_Z n / of_Z (10 ^ Z.of_nat (String.length f)))%float.

Definition parse_decimal (s : string) : option float64 :=
  match s with
  | String "-" s' => fopp <$> parse_unsigned s'
  | String "+" s' => parse_unsigned s'
  | _ => parse_unsigned s
  end.

(** Seven rows in the layout of the Nifty snapshot: price columns arrive
    as strings with thousands separators, the others as numbers. *)
Definition snapshot : DataFrame :=
  mkDataFrame 7 (list_to_map [
    ("Symbol", SObj ["RELIANCE"; "TCS"; "INFY"; "EDGE"; "EDGEN"; "MRF"; "FLAT"]);
    ("Open", SObj ["2,480.00"; "3,390.00"; "1,495.00"; "100.00"; "100.00"; "84,000.00"; "10.00"]);
    ("High", SObj ["2,520.00"; "3,420.00"; "1,510.00"; "101.00"; "101.00"; "85,500.00"; "10.50"]);
    ("Low", SObj ["2,470.00"; "3,380.00"; "1,490.00"; "99.00"; "99.00"; "83,900.00"; "9.90"]);
    ("LTP", SObj ["2,500.00"; "3,400.50"; "1,500.00"; "100.00"; "100.00"; "85,000.00"; "10.00"]);
    ("Turnover (crs.)", SObj ["1,250.75"; "980.10"; "640.00"; "1.00"; "1.00"; "310.20"; "0.50"]);
    ("52w H", SObj ["2,856.00"; "4,043.00"; "1,733.00"; "120.00"; "160.00"; "98,600.00"; "12.00"]);
    ("52w L", SObj ["2,180.00"; "3,311.00"; "1,351.00"; "70.00"; "95.00"; "55,000.00"; "8.00"]);
    ("30 d % chng", SFloat [lit 10; lit (-12); lit 2; lit 0; lit 0; lit 5; lit 5]);
    ("365 d % chng", SFloat [lit 30; lit (-40); lit 5; lit 30; lit (-30); lit 40; lit 0.01]);
    ("Volume (lacs)", SFloat [lit 50; lit 50; lit 30; lit 50; lit 50; lit 70; lit 50])
  ]).

(** The uploaded data sits at location 1 of an otherwise empty heap. *)
Definition data : loc := 1%positive.
Definition uploaded : heap := {[ data := snapshot ]}.

(** The model that [instantiate_model] builds over it, for a capital of
    1,000,000 and of 100,000, and the heap after the call: the copy made
    for the model is at location 2. *)
Definition model : DRLTradingModel :=
  mkModel 2 (lit 1000000) (lit 0.05 / lit 252)%float.
Definition prepared : heap :=
  Eval vm_compute in (instantiate_model parse_decimal data (lit 1000000) uploaded).2.

(** A file with a header line and no row: every column is read with dtype
    [object] and is empty. *)
Definition header_only : DataFrame :=
  mkDataFrame 0 (list_to_map [
    ("Symbol", SObj []); ("Open", SObj []); ("High", SObj []);
    ("Low", SObj []); ("LTP", SObj []); ("Turnover (crs.)", SObj []);
    ("52w H", SObj []); ("52w L", SObj []); ("30 d % chng", SObj []);
    ("365 d % chng", SObj []); ("Volume (lacs)", SObj [])
  ]).

End Sample.

(** ** Frames with one entry per row in every column *)

Definition well_formed (d : DataFrame) : Prop :=
  ∀ c s, columns d !! c = Some s → size s = index d.

(** A column that [.astype(float)] accepts after the commas are removed:
    every string cell is a number for [py_float]. *)
Definition parses (py_float : string → option float64) (s : Series) : Prop :=
  match s with
  | SObj l => ∀ x, x ∈ l → is_Some (py_float (remove_commas x))
  | SFloat _ => True
  end.

(** The column [c] after cleaning, against the column before: a column of
    strings has become the column of their numbers, a numeric column is
    what it was. *)
Definition cleaned_from (py_float : string → option float64)
    (before after : option Series) : Prop :=
  match before with
  | Some (SObj l) =>
      ∃ xs, after = Some (SFloat xs) ∧
            astype_float py_float (remove_commas <$> l) = Return xs
  | Some (SFloat xs) => after = Some (SFloat xs)
  | None => False
  end.

(** ** The text of the log lines

    The three f-strings of [run_policy_and_backtest] with their formats:
    [{x:,.4f}] and [{x:,.2f}] for floats, [{n}] for the number of shares.
    The formats are Python's; what is used of them is that they print
    digits, separators, a sign, [nan] or [inf]. *)

Definition signal_name (s : signal) : string :=
  match s with
  | BUY => "BUY"
  | SELL => "SELL"
  | HOLD => "HOLD"
  end.

Definition numeric_char (c : ascii) : bool :=
  bool_decide (c ∈ list_ascii_of_string "0123456789,.-nanif").

Definition numeric_text (s : string) : Prop :=
  Forall (λ c, numeric_char c = true) (list_ascii_of_string s).

Section Render.

Variable fmt_4f : float64 → string.       (* f"{x:,.4f}" *)
Variable fmt_2f : float64 → string.       (* f"{x:,.2f}" *)
Variable str_int : Z → string.            (* f"{n}" *)

Definition render (line : log_line) : string :=
  match line with
  | Triggered s drl_score =>
      "**Autonomous " +:+ signal_name s +:+ " Signal** triggered by DRL Score: "
        +:+ fmt_4f drl_score +:+ "."
  | Purchased shares_to_buy investment =>
      "Shares Purchased: " +:+ str_int shares_to_buy
        +:+ ". Initial Investment: ₹ " +:+ fmt_2f investment +:+ "."
  | Profit simulated_profit =>
      "Simulated Profit (using 30d return as proxy): ₹ "
        +:+ fmt_2f simulated_profit +:+ "."
  | Text s => s
  end.

End Render.

(** ** app.py: what [main] does with the model and with a decision *)

Module App.

(** [p in s] on strings. *)
Fixpoint startswith (p s : string) : bool :=
  match p, s with
  | EmptyString, _ => true
  | String a p', String b s' => Ascii.eqb a b && startswith p' s'
  | String _ _, EmptyString => false
  end.

Fixpoint isin (p s : string) : bool :=
  startswith p s ||
  match s with
  | EmptyString => false
  | String _ s' => isin p s'
  end.

(** The box a log line is shown in: [log_container.success], [.error] or
    [.info] (lines 214 to 220). *)
Inductive box : Type := success | error | info.

Definition log_box (line : string) : box :=
  if isin "**Autonomous BUY Signal**" line || isin "**Shares Purchased**" line
     || isin "Profit" line then success
  else if isin "**Autonomous SELL Signal**" line || isin "Risk Managed" line
  then error
  else info.

(** [delta_color] of the score metric (lines 184 to 186). *)
Inductive delta_color : Type := inverse | normal | off.

Definition score_color (metrics : Metrics) : delta_color :=
  if (DRL_Score metrics >? lit 0.1)%float then inverse
  else if (DRL_Score metrics <? lit (-0.1))%float then normal
  else off.

(** Order of [sorted] on [str]: by code point, a prefix first. *)
Definition str_le (a b : string) : Prop := String.leb a b = true.

Global Instance str_le_dec : RelDecision str_le.
Proof. intros a b. unfold str_le. apply _. Defined.

Global Instance str_le_total : Total str_le.
Proof. intros a b. apply String.leb_total. Qed.

(** [sorted(drl_model.df['Symbol'].unique())] for a column of strings
    (line 132). *)
Definition available_symbols (symbols : list string) : list string :=
  merge_sort str_le (remove_dups symbols).

(** The [index] argument of the select box (line 138). *)
Definition default_index (available : list string) : nat :=
  if bool_decide ("RELIANCE" ∈ available)
  then default 0 (index_of "RELIANCE" available)
  else 0.

(** The keys of the [features] dictionary of the expander (lines 271 to
    278), in the order in which they are read. *)
Definition feature_keys : list string :=
  ["LTP"; "30 d % chng"; "365 d % chng"; "Volume (lacs)"; "Volume_Ratio";
   "Momentum_Score"].

(** [raw_data_row = df[df['Symbol'] == selected_symbol].iloc[0]] and the
    dictionary built from it. *)
Definition features (df : loc) (selected_symbol : string)
  : M (list (string * cell)) :=
  mask ← getitem df "Symbol";
  d ← deref df;
  i ← lift (or_raise IndexError (first_match mask selected_symbol));
  let raw_data_row := row_at d i in
  lift (mapM_res (λ key, v ← item raw_data_row key; mret (key, v)) feature_keys).

End App.

(** ** Small prepared frames for the examples below *)

Module Cases.

(** Number formats for the examples: enough digits to tell values apart
    are not needed, only text of the right alphabet. *)
Definition fmt (x : float64) : string :=
  match x with
  | S754_zero s | S754_finite s _ _ => if s then "-1.00" else "1.00"
  | S754_infinity s => if s then "-inf" else "inf"
  | S754_nan => "nan"
  end.

Definition str_Z (n : Z) : string :=
  match n with
  | Z0 => "0"
  | Zpos _ => "1"
  | Zneg _ => "-1"
  end.

(** One already prepared row: a given price, the two changes and the
    volume ratio. *)
Definition one_row (ltp c30 c365 vr : float64) : DataFrame :=
  mkDataFrame 1 (list_to_map [
    ("Symbol", SObj ["ACME"]);
    ("LTP", SFloat [ltp]);
    ("30 d % chng", SFloat [c30]);
    ("365 d % chng", SFloat [c365]);
    ("Volume_Ratio", SFloat [vr])
  ]).

Definition at_1 (d : DataFrame) : heap := {[ 1%positive := d ]}.

Definition model_1 (cap : float64) : DRLTradingModel :=
  mkModel 1 cap (lit 0.05 / lit 252)%float.

(** A raw snapshot of three stocks that did not trade. *)
Definition no_volume : DataFrame :=
  mkDataFrame 3 (list_to_map [
    ("Symbol", SObj ["A"; "B"; "C"]);
    ("Open", SFloat [lit 10; lit 20; lit 30]);
    ("High", SFloat [lit 10; lit 20; lit 30]);
    ("Low", SFloat [lit 10; lit 20; lit 30]);
    ("LTP", SFloat [lit 10; lit 20; lit 30]);
    ("Turnover (crs.)", SFloat [lit 0; lit 0; lit 0]);
    ("52w H", SFloat [lit 10; lit 20; lit 30]);
    ("52w L", SFloat [lit 10; lit 20; lit 30]);
    ("30 d % chng", SFloat [lit 50; lit (-50); lit 0]);
    ("365 d % chng", SFloat [lit 90; lit (-90); lit 0]);
    ("Volume (lacs)", SFloat [lit 0; lit 0; lit 0])
  ]).

(** A raw snapshot with a price that is not a number. *)
Definition bad_price : DataFrame :=
  mkDataFrame 2 (list_to_map [
    ("Symbol", SObj ["A"; "B"]);
    ("Open", SObj ["1,000.00"; "20.00"]);
    ("High", SObj ["1,010.00"; "n/a"]);
    ("Low", SObj ["990.00"; "19.00"]);
    ("LTP", SObj ["1,000.00"; "20.00"]);
    ("Turnover (crs.)", SFloat [lit 1; lit 2]);
    ("52w H", SFloat [lit 1200; lit 30]);
    ("52w L", SFloat [lit 800; lit 10]);
    ("30 d % chng", SFloat [lit 1; lit 2]);
    ("365 d % chng", SFloat [lit 3; lit 4]);
    ("Volume (lacs)", SFloat [lit 5; lit 15])
  ]).

(** A raw snapshot of one stock: its price as text, its two changes and a
    volume. *)
Definition raw_row (ltp : string) (c30 c365 : float64) : DataFrame :=
  mkDataFrame 1 (list_to_map [
    ("Symbol", SObj ["ACME"]);
    ("Open", SObj [ltp]);
    ("High", SObj [ltp]);
    ("Low", SObj [ltp]);
    ("LTP", SObj [ltp]);
    ("Turnover (crs.)", SFloat [lit 1]);
    ("52w H", SObj [ltp]);
    ("52w L", SObj [ltp]);
    ("30 d % chng", SFloat [c30]);
    ("365 d % chng", SFloat [c365]);
    ("Volume (lacs)", SFloat [lit 5])
  ]).

(** A raw snapshot of one stock that hardly moved in 30 days. *)
Definition quiet : DataFrame :=
  mkDataFrame 1 (list_to_map [
    ("Symbol", SObj ["ACME"]);
    ("Open", SObj ["100.00"]);
    ("High", SObj ["101.00"]);
    ("Low", SObj ["99.00"]);
    ("LTP", SObj ["100.00"]);
    ("Turnover (crs.)", SFloat [lit 1]);
    ("52w H", SObj ["120.00"]);
    ("52w L", SObj ["80.00"]);
    ("30 d % chng", SFloat [lit 0.05]);
    ("365 d % chng", SFloat [lit 40]);
    ("Volume (lacs)", SFloat [lit 5])
  ]).

(** The sample snapshot without its [Low] column. *)
Definition no_low : DataFrame :=
  mkDataFrame (index Sample.snapshot) (delete "Low" (columns Sample.snapshot)).

End Cases.

(** * Properties *)

(** ** Arithmetic of [float64] *)

(** Literals as the binary64 numbers they are. *)
Ltac eval_lits :=
  repeat match goal with
         | |- context [lit ?q] =>
             let v := eval vm_compute in (lit q) in change (lit q) with v
         | H : context [lit ?q] |- _ =>
             let v := eval vm_compute in (lit q) in change (lit q) with v in H
         end.

(** Equality of closed values. *)
Ltac float_eq := vm_compute; reflexivity.

Section FloatFacts.

(** Comparing the other way round gives the opposite answer. *)
Lemma SFcompare_swap (x y : float64) :
  SFcompare y x = CompOpp <$> SFcompare x y.
Proof.
  destruct x as [sx|sx| |sx mx ex], y as [sy|sy| |sy my ey]; simpl;
    try done; try (by destruct sx); try (by destruct sy);
    try (by destruct sx, sy).
  destruct sx, sy; simpl; try done; f_equal;
    rewrite (Z.compare_antisym ex ey); destruct (ex ?= ey)%Z; simpl; try done;
    rewrite (Pos.compare_cont_antisym mx my Eq); simpl;
    by destruct (Pos.compare_cont Eq mx my).
Qed.

Lemma fleb_not_fgtb (x y : float64) :
  (x <=? y)%float = true → (x >? y)%float = false.
Proof.
  unfold fleb, fgtb, fltb, SFleb, SFltb. rewrite (SFcompare_swap x y).
  by destruct (SFcompare x y) as [[| |]|].
Qed.

Lemma binary_round_aux_signed s m e l :
  signed s (binary_round_aux prec emax s m e l).
Proof.
  unfold binary_round_aux, signed.
  destruct (shr_fexp _ _ _ _ _) as [mrs' e'].
  destruct (shr_fexp _ _ _ _ _) as [mrs'' e''].
  destruct (shr_m mrs'') as [|p|p]; [by left| |by right; right; left].
  destruct (_ <=? _)%Z; [right; right; right; eauto | right; by left].
Qed.

(** NaN is absorbing. *)
Lemma fadd_NaN_r x : (x + NaN)%float = NaN.
Proof. by destruct x as [[]|[]| |]. Qed.

Lemma fmul_NaN_r x : (x * NaN)%float = NaN.
Proof. by destruct x as [[]|[]| |]. Qed.

Lemma fdiv_NaN_r x : (x / NaN)%float = NaN.
Proof. by destruct x as [[]|[]| |]. Qed.

End FloatFacts.

(** The fuel of [pairwise_sum] does not matter once it reaches the length
    of the array: every cut leaves two shorter arrays. *)
Lemma pairwise_sum_fuel (fuel fuel' : nat) (l : list float64) :
  length l ≤ fuel → length l ≤ fuel' →
  pairwise_sum fuel l = pairwise_sum fuel' l.
Proof.
  revert fuel' l. induction fuel as [|fuel IH]; intros fuel' l Hf Hf'.
  { destruct l; [|simpl in Hf; lia]. by destruct fuel'. }
  destruct fuel' as [|fuel'].
  { destruct l; [|simpl in Hf'; lia]. done. }
  cbn [pairwise_sum]. cbv zeta.
  destruct (Nat.leb_spec (length l) 128) as [Hle|Hgt]; [done|].
  pose proof (Nat.div_mod_eq (length l) 2) as Hdiv.
  assert (length l mod 2 < 2) as Hmod2 by (apply Nat.mod_upper_bound; lia).
  assert ((length l / 2) mod 8 < 8) as Hmod8 by (apply Nat.mod_upper_bound; lia).
  generalize dependent (length l mod 2). intros r2 Hdiv Hmod2.
  generalize dependent ((length l / 2) mod 8). intros r8 Hmod8.
  generalize dependent (length l / 2). intros k Hdiv.
  f_equal; apply IH; rewrite ?length_take, ?length_drop; lia.
Qed.


(** ** The monad *)

Section MonadFacts.

Context {A B : Type}.

Lemma bind_Return (m : M A) (f : A → M B) h a h1 :
  m h = (Return a, h1) → (m ≫= f) h = f a h1.
Proof. unfold mbind, M_bind. by intros ->. Qed.

Lemma bind_Raise (m : M A) (f : A → M B) h e h1 :
  m h = (Raise e, h1) → (m ≫= f) h = (Raise e, h1).
Proof. unfold mbind, M_bind. by intros ->. Qed.

Lemma bind_inv (m : M A) (f : A → M B) h b h' :
  (m ≫= f) h = (Return b, h') →
  ∃ a h1, m h = (Return a, h1) ∧ f a h1 = (Return b, h').
Proof.
  unfold mbind, M_bind. destruct (m h) as [[a|e] h1]; [eauto | done].
Qed.

Lemma preserves_bind l (m : M A) (f : A → M B) :
  preserves l m → (∀ a, preserves l (f a)) → preserves l (m ≫= f).
Proof.
  intros Hm Hf h. specialize (Hm h). unfold mbind, M_bind.
  destruct (m h) as [[a|e] h1]; simpl in *; [|done].
  by rewrite Hf.
Qed.

Lemma preserves_ret l (a : A) : preserves l (mret a : M A).
Proof. by intros h. Qed.

Lemma preserves_lift l (r : res A) : preserves l (lift r).
Proof. by intros h. Qed.

End MonadFacts.

Lemma preserves_getitem l df col : preserves l (getitem df col).
Proof. by intros h. Qed.

Lemma preserves_deref l df : preserves l (deref df).
Proof. by intros h. Qed.

Lemma preserves_setitem l df col s : l ≠ df → preserves l (setitem df col s).
Proof. intros Hne h. simpl. by rewrite lookup_insert_ne. Qed.

Lemma preserves_for_each {A} l (xs : list A) (body : A → M unit) :
  (∀ x, preserves l (body x)) → preserves l (for_each xs body).
Proof.
  intros Hbody. induction xs as [|x xs IH]; simpl.
  - apply preserves_ret.
  - apply preserves_bind; [apply Hbody | intros _; exact IH].
Qed.

Lemma preserves_apply_rows l df f : preserves l (apply_rows df f).
Proof.
  unfold apply_rows.
  apply preserves_bind; [apply preserves_deref | intros d].
  apply preserves_bind; [apply preserves_lift | intros xs].
  apply preserves_ret.
Qed.

Create HintDb frame.

#[local] Hint Resolve preserves_ret preserves_lift preserves_getitem
  preserves_deref preserves_setitem preserves_apply_rows : frame.

(** [_process_data] writes to the frame it is given and to nothing else,
    also when it raises. *)
Lemma _process_data_preserves py l df :
  l ≠ df → preserves l (_process_data py df).
Proof.
  intros Hne. unfold _process_data.
  apply preserves_bind.
  { apply preserves_for_each. intros col.
    apply preserves_bind; [auto with frame | intros [vs|ss]].
    - auto with frame.
    - apply preserves_bind; [auto with frame | intros xs; auto with frame]. }
  intros _. repeat (apply preserves_bind; [auto with frame | intros ?]).
  auto with frame.
Qed.

Lemma __init___preserves py l stock_df cap :
  l ≠ stock_df → preserves l (__init__ py stock_df cap).
Proof.
  intros Hne. unfold __init__.
  apply preserves_bind; [by apply _process_data_preserves | intros d].
  apply preserves_ret.
Qed.

(** ** [_process_data] computes [prepare] in place *)

Section Prepare.

Variable py_float : string → option float64.

(** A loop whose body acts on the frame at [df] as [step] acts on its
    value does what the iteration of [step] does. *)
Lemma for_each_step df (step : string → DataFrame → res DataFrame)
    (body : string → M unit) :
  (∀ col h d, h !! df = Some d →
     match step col d with
     | Return d1 => body col h = (Return (), <[df := d1]> h)
     | Raise e => (body col h).1 = Raise e
     end) →
  ∀ cols h d, h !! df = Some d →
    match fold_cols step cols d with
    | Return d1 => for_each cols body h = (Return (), <[df := d1]> h)
    | Raise e => (for_each cols body h).1 = Raise e
    end.
Proof.
  intros Hstep cols. induction cols as [|col cols IH]; intros h d Hd; simpl.
  { by rewrite insert_id. }
  specialize (Hstep col h d Hd).
  destruct (step col d) as [d0|e]; simpl.
  - erewrite bind_Return by exact Hstep.
    specialize (IH (<[df := d0]> h) d0 (lookup_insert_eq _ _ _)).
    destruct (fold_cols _ _ _) as [d1|e]; [|done].
    by rewrite IH, insert_insert_eq.
  - destruct (body col h) as [[[]|e'] h1] eqn:Hb; simpl in Hstep; [done|].
    erewrite bind_Raise by exact Hb. done.
Qed.

Lemma _process_data_prepare_gen df h d :
  h !! df = Some d →
  match prepare py_float d with
  | Return d' => _process_data py_float df h = (Return df, <[df := d']> h)
  | Raise e => (_process_data py_float df h).1 = Raise e
  end.
Proof.
  intros Hd. unfold prepare, _process_data.
  unfold clean_cols.
  match goal with |- context [for_each _ ?b] =>
    pose proof (for_each_step df (clean_col py_float) b) as Hloop end.
  lapply Hloop; clear Hloop.
  2:{ intros col h0 d0 Hd0.
      unfold clean_col, getitem, lift, setitem, mbind, M_bind, res_bind,
        mret, M_ret, res_ret.
      rewrite (lookup_total_correct _ _ _ Hd0).
      destruct (columns d0 !! col) as [[vs|ss]|]; simpl; [| |done].
      - by rewrite insert_id.
      - destruct (astype_float _ _) as [xs|e]; simpl; [|done].
        by rewrite (lookup_total_correct _ _ _ Hd0). }
  intros Hloop. specialize (Hloop cols_to_clean h d Hd).
  destruct (fold_cols _ _ _) as [d1|e]; simpl.
  2:{ destruct (for_each _ _ _) as [[[]|e'] h1] eqn:Hfe; simpl in Hloop; [done|].
      erewrite bind_Raise by exact Hfe. simpl. congruence. }
  erewrite bind_Return by exact Hloop.
  unfold apply_rows, deref, lift, getitem, setitem, mbind, M_bind, res_bind,
    mret, M_ret, res_ret.
  rewrite lookup_total_insert_eq.
  destruct (mapM_res _ _) as [ms|e]; simpl; [|done].
  rewrite !lookup_total_insert_eq. simpl.
  destruct (_ !! "Volume (lacs)") as [v|]; simpl; [|done].
  destruct (mean v) as [mu|e]; simpl; [|done].
  destruct (div_scalar v mu) as [r|e]; simpl; [|done].
  by rewrite !insert_insert_eq.
Qed.

(** A successful [_process_data] returns the reference it was given and
    leaves [prepare d] there; and it succeeds whenever [prepare d] is
    defined. *)
Lemma _process_data_prepare df h d l h' :
  h !! df = Some d →
  _process_data py_float df h = (Return l, h') ↔
  l = df ∧ ∃ d', prepare py_float d = Return d' ∧ h' = <[df := d']> h.
Proof.
  intros Hd. pose proof (_process_data_prepare_gen df h d Hd) as Hgen.
  destruct (prepare py_float d) as [d'|e].
  - rewrite Hgen. split.
    + intros [= <- <-]. eauto.
    + intros [-> (? & [= <-] & ->)]. done.
  - split.
    + intros Heq. rewrite Heq in Hgen. done.
    + intros [_ (? & [=] & _)].
Qed.

End Prepare.

(** ** Rows and columns *)

Lemma row_at_lookup d i key :
  row_at d i !! key = columns d !! key ≫= λ s, iat s i.
Proof. unfold row_at. apply lookup_omap. Qed.

Lemma row_at_set_col_ne col s d i key :
  col ≠ key → row_at (set_col col s d) i !! key = row_at d i !! key.
Proof. intros Hne. rewrite !row_at_lookup. simpl. by rewrite lookup_insert_ne. Qed.

Lemma set_col_id col s d : columns d !! col = Some s → set_col col s d = d.
Proof. intros Hs. destruct d as [n cs]. unfold set_col; simpl in *. by rewrite insert_id. Qed.

(** What [num] and [item] read depends on that one cell of the row. *)
Lemma num_ext (x y : Row) key : x !! key = y !! key → num x key = num y key.
Proof. unfold num. by intros ->. Qed.

Lemma item_ext (x y : Row) key : x !! key = y !! key → item x key = item y key.
Proof. unfold item. by intros ->. Qed.

Lemma momentum_score_ext (x y : Row) :
  x !! "365 d % chng" = y !! "365 d % chng" →
  x !! "30 d % chng" = y !! "30 d % chng" →
  momentum_score x = momentum_score y.
Proof.
  intros H365 H30. unfold momentum_score.
  by rewrite (num_ext x y _ H365), (num_ext x y _ H30).
Qed.

Lemma mapM_res_ext {A B} (f g : A → res B) l :
  (∀ a, a ∈ l → f a = g a) → mapM_res f l = mapM_res g l.
Proof.
  induction l as [|a l IH]; intros Hfg; simpl; [done|].
  rewrite (Hfg a) by left. rewrite IH; [done|].
  intros b Hb. apply Hfg. by right.
Qed.

Lemma mapM_res_fmap {A B C} (f : B → res C) (g : A → B) l :
  mapM_res f (g <$> l) = mapM_res (f ∘ g) l.
Proof. induction l as [|a l IH]; csimpl; [done|]. by rewrite IH. Qed.

Lemma mapM_res_length {A B} (f : A → res B) l bs :
  mapM_res f l = Return bs → length bs = length l.
Proof.
  revert bs. induction l as [|a l IH]; intros bs; simpl.
  { by intros [= <-]. }
  destruct (f a) as [b|]; simpl; [|done].
  destruct (mapM_res f l) as [bs'|]; simpl; [|done].
  intros [= <-]. simpl. f_equal. by apply IH.
Qed.

Lemma mapM_res_lookup {A B} (f : A → res B) l bs i a :
  mapM_res f l = Return bs → l !! i = Some a →
  ∃ b, f a = Return b ∧ bs !! i = Some b.
Proof.
  revert bs i. induction l as [|a' l IH]; intros bs i; simpl; [done|].
  destruct (f a') as [b'|] eqn:Hfa; simpl; [|done].
  destruct (mapM_res f l) as [bs'|]; simpl; [|done].
  intros [= <-]. destruct i as [|i]; simpl.
  - intros [= ->]. eauto.
  - intros Hi. by apply IH.
Qed.

(** ** Facts about [prepare] *)

Section PrepareFacts.

Variable py_float : string → option float64.

Lemma clean_col_spec col d d1 :
  clean_col py_float col d = Return d1 →
  index d1 = index d ∧
  (∃ xs, columns d1 !! col = Some (SFloat xs)) ∧
  (∀ c, c ≠ col → columns d1 !! c = columns d !! c) ∧
  (∀ c xs, columns d !! c = Some (SFloat xs) → columns d1 !! c = Some (SFloat xs)).
Proof.
  unfold clean_col.
  destruct (columns d !! col) as [[vs|ss]|] eqn:Hcol; simpl; [| |done].
  - intros [= <-]. eauto 10.
  - destruct (astype_float _ _) as [xs|]; simpl; [|done].
    intros [= <-]. simpl. split; [done|]. split; [|split].
    + rewrite lookup_insert_eq. eauto.
    + intros c Hc. by rewrite lookup_insert_ne.
    + intros c ys Hys. rewrite lookup_insert_ne; [done|]. congruence.
Qed.

Lemma clean_cols_spec cols d d1 :
  clean_cols py_float cols d = Return d1 →
  index d1 = index d ∧
  (∀ c, c ∈ cols → ∃ xs, columns d1 !! c = Some (SFloat xs)) ∧
  (∀ c, c ∉ cols → columns d1 !! c = columns d !! c) ∧
  (∀ c xs, columns d !! c = Some (SFloat xs) → columns d1 !! c = Some (SFloat xs)).
Proof.
  unfold clean_cols. revert d.
  induction cols as [|col cols IH]; intros d; simpl.
  { intros [= <-]. repeat split; [|done..]. intros c Hc. by apply not_elem_of_nil in Hc. }
  destruct (clean_col py_float col d) as [d0|] eqn:Hstep; simpl; [|done].
  intros Hrest.
  destruct (clean_col_spec _ _ _ Hstep) as (Hi0 & [xs0 Hx0] & Hne0 & Hfl0).
  destruct (IH _ Hrest) as (Hi1 & Hin1 & Hnot1 & Hfl1).
  split; [congruence|]. split; [|split].
  - intros c [->|Hc]%elem_of_cons; [|by apply Hin1]. eauto.
  - intros c Hc%not_elem_of_cons. destruct Hc as [Hc1 Hc2].
    rewrite Hnot1 by done. by apply Hne0.
  - intros c xs Hc. eauto.
Qed.

(** Cleaning finds nothing to do once the seven columns are numeric. *)
Lemma clean_cols_numeric cols d :
  (∀ c, c ∈ cols → ∃ xs, columns d !! c = Some (SFloat xs)) →
  clean_cols py_float cols d = Return d.
Proof.
  unfold clean_cols. induction cols as [|col cols IH]; intros Hnum; simpl; [done|].
  destruct (Hnum col) as [xs Hxs]; [by left|].
  unfold clean_col. rewrite Hxs. simpl. apply IH.
  intros c Hc. apply Hnum. by right.
Qed.

Lemma momentum_rows_ext d1 d2 :
  index d1 = index d2 →
  columns d1 !! "365 d % chng" = columns d2 !! "365 d % chng" →
  columns d1 !! "30 d % chng" = columns d2 !! "30 d % chng" →
  mapM_res momentum_score (rows d1) = mapM_res momentum_score (rows d2).
Proof.
  intros Hi H365 H30. unfold rows. rewrite Hi, !mapM_res_fmap.
  apply mapM_res_ext. intros i _. simpl.
  apply momentum_score_ext; rewrite !row_at_lookup; congruence.
Qed.

End PrepareFacts.

Section PrepareShape.

Variable py_float : string → option float64.

(** The parts of a prepared frame, in terms of the frame it comes from:
    the momentum scores are computed from rows of the input, and the
    volume ratios from its volume column. *)
Lemma prepare_spec d d' :
  prepare py_float d = Return d' →
  ∃ d1 ms v mu r,
    clean_cols py_float cols_to_clean d = Return d1 ∧
    mapM_res momentum_score (rows d) = Return ms ∧
    columns d !! "Volume (lacs)" = Some v ∧
    mean v = Return mu ∧
    div_scalar v mu = Return r ∧
    d' = set_col "Volume_Ratio" r (set_col "Momentum_Score" (SFloat ms) d1).
Proof.
  unfold prepare.
  destruct (clean_cols _ _ _) as [d1|] eqn:Hclean; simpl; [|done].
  destruct (clean_cols_spec _ _ _ _ Hclean) as (Hidx & _ & Hsame & _).
  rewrite (momentum_rows_ext d1 d) by (rewrite ?Hsame; [done | compute_done..]).
  destruct (mapM_res _ _) as [ms|]; simpl; [|done].
  rewrite lookup_insert_ne by done.
  rewrite Hsame by compute_done.
  destruct (columns d !! "Volume (lacs)") as [v|]; simpl; [|done].
  destruct (mean v) as [mu|] eqn:Hmu; simpl; [|done].
  destruct (div_scalar v mu) as [r|] eqn:Hr; simpl; [|done].
  intros [= <-]. by exists d1, ms, v, mu, r.
Qed.

Lemma prepare_index d d' : prepare py_float d = Return d' → index d' = index d.
Proof.
  intros (d1 & ms & v & mu & r & Hclean & _ & _ & _ & _ & ->)%prepare_spec.
  simpl. by destruct (clean_cols_spec _ _ _ _ Hclean) as (? & _).
Qed.

(** Columns that preparation neither cleans nor derives are the input's. *)
Lemma prepare_other d d' c :
  prepare py_float d = Return d' →
  c ∉ cols_to_clean → c ≠ "Momentum_Score" → c ≠ "Volume_Ratio" →
  columns d' !! c = columns d !! c.
Proof.
  intros (d1 & ms & v & mu & r & Hclean & _ & _ & _ & _ & ->)%prepare_spec Hc Hm Hv.
  simpl. rewrite !lookup_insert_ne by done.
  destruct (clean_cols_spec _ _ _ _ Hclean) as (_ & _ & Hsame & _). by apply Hsame.
Qed.

Lemma prepare_numeric d d' c :
  prepare py_float d = Return d' → c ∈ cols_to_clean →
  ∃ xs, columns d' !! c = Some (SFloat xs).
Proof.
  intros (d1 & ms & v & mu & r & Hclean & _ & _ & _ & _ & ->)%prepare_spec Hc.
  simpl.
  assert (c ≠ "Volume_Ratio" ∧ c ≠ "Momentum_Score") as [??].
  { split; intros ->; revert Hc; compute_done. }
  rewrite !lookup_insert_ne by done.
  destruct (clean_cols_spec _ _ _ _ Hclean) as (_ & Hin & _). by apply Hin.
Qed.

(** Preparing a prepared frame gives that frame again. *)
Lemma prepare_idempotent d d' :
  prepare py_float d = Return d' → prepare py_float d' = Return d'.
Proof.
  intros Hprep.
  pose proof (prepare_index _ _ Hprep) as Hidx.
  pose proof (prepare_other _ _ "365 d % chng" Hprep) as H365.
  pose proof (prepare_other _ _ "30 d % chng" Hprep) as H30.
  pose proof (prepare_other _ _ "Volume (lacs)" Hprep) as Hvol.
  pose proof (λ c, prepare_numeric _ _ c Hprep) as Hnum.
  destruct (prepare_spec _ _ Hprep) as (d1 & ms & v & mu & r & _ & Hms & Hv & Hmu & Hr & Hd').
  assert (set_col "Momentum_Score" (SFloat ms) d' = d') as Hid1.
  { apply set_col_id. rewrite Hd'. simpl.
    rewrite lookup_insert_ne by done. apply lookup_insert_eq. }
  assert (set_col "Volume_Ratio" r d' = d') as Hid2.
  { apply set_col_id. rewrite Hd'. simpl. apply lookup_insert_eq. }
  unfold prepare.
  rewrite (clean_cols_numeric _ _ _ Hnum). cbn [mbind res_bind].
  rewrite (momentum_rows_ext d' d), Hms by (auto; (apply H365 || apply H30); compute_done).
  cbn [mbind res_bind]. cbv zeta. rewrite Hid1.
  rewrite Hvol, Hv by compute_done. cbn [mbind res_bind or_raise].
  rewrite Hmu. cbn [mbind res_bind]. rewrite Hr. cbn [mbind res_bind].
  by rewrite Hid2.
Qed.

End PrepareShape.

(** ** Facts about [run_policy_and_backtest] *)

(** The method only reads: whatever its outcome, the heap is the one it
    started from. *)
Lemma run_policy_and_backtest_heap self symbol h :
  (run_policy_and_backtest self symbol h).2 = h.
Proof.
  unfold run_policy_and_backtest, mbind, M_bind, mret, M_ret, getitem, deref, lift.
  repeat (case_match; simplify_eq/=; try done).
Qed.

(** Everything a successful decision is made of. *)
Lemma run_policy_and_backtest_inv self symbol h m log h' :
  run_policy_and_backtest self symbol h = (Return (Some m, log), h') →
  h' = h ∧
  ∃ syms i ltp c365 c30 vr lines,
    columns (h !!! df self) !! "Symbol" = Some (SObj syms) ∧
    index_of symbol syms = Some i ∧
    num (row_at (h !!! df self) i) "365 d % chng" = Return c365 ∧
    num (row_at (h !!! df self) i) "30 d % chng" = Return c30 ∧
    num (row_at (h !!! df self) i) "Volume_Ratio" = Return vr ∧
    item (row_at (h !!! df self) i) "LTP" = Return ltp ∧
    _generate_signal (row_at (h !!! df self) i) = Return (Final_Signal m) ∧
    Symbol m = symbol ∧ LTP m = ltp ∧ Chng30d m = c30 ∧ Chng365d m = c365 ∧
    DRL_Score m =
      (lit 0.5 * c365 / lit 100 + lit 0.3 * c30 / lit 100 + lit 0.2 * (vr - lit 1))%float ∧
    Initial_Capital m = initial_capital self ∧
    Sharpe_Ratio m =
      (if (Cumulative_Return m >? lit 0)%float
       then ((Cumulative_Return m - risk_free_rate self) / lit 0.1)%float
       else lit 0) ∧
    log = Lines lines ∧
    match Final_Signal m with
    | BUY =>
        ∃ p shares_to_buy,
          ltp = CNum p ∧
          int (initial_capital self * lit 0.2 / p)%float = Return shares_to_buy ∧
          Simulated_Profit m = (of_Z shares_to_buy * p * (c30 / lit 100))%float ∧
          Final_Capital m = (initial_capital self + Simulated_Profit m)%float ∧
          Cumulative_Return m = (Simulated_Profit m / initial_capital self)%float ∧
          lines = [Triggered BUY (DRL_Score m);
                   Purchased shares_to_buy (of_Z shares_to_buy * p)%float;
                   Profit (Simulated_Profit m)]
    | s =>
        Simulated_Profit m = lit 0 ∧
        Final_Capital m = initial_capital self ∧
        Cumulative_Return m = lit 0 ∧
        ∃ t, lines = [Triggered s (DRL_Score m); Text t]
    end.
Proof.
  intros H. split; [by rewrite <-(run_policy_and_backtest_heap self symbol h), H |].
  revert H.
  unfold run_policy_and_backtest, mbind, M_bind, mret, M_ret, getitem, deref, lift.
  destruct (columns (h !!! df self) !! "Symbol") as [[vs|syms]|] eqn:Hsym; simpl; try done.
  destruct (bool_decide (symbol ∈ syms)); simpl; [|done].
  rewrite Hsym; simpl.
  destruct (index_of symbol syms) as [i|] eqn:Hi; simpl; [|done].
  destruct (_generate_signal _) as [sg|] eqn:Hsg; [|done].
  destruct (num _ "365 d % chng") as [c365|] eqn:H365; [|done].
  destruct (num _ "30 d % chng") as [c30|] eqn:H30; [|done].
  destruct (num _ "Volume_Ratio") as [vr|] eqn:Hvr; [|done].
  destruct (item _ "LTP") as [ltp|] eqn:Hltp; [|done].
  intros H. exists syms, i, ltp, c365, c30, vr.
  destruct sg.
  - destruct ltp as [p|]; [|done].
    destruct (int _) as [n|] eqn:Hint; [|done].
    simplify_eq/=. eexists. repeat split; eauto. by exists p, n.
  - destruct (_ && _); simplify_eq/=; eexists; repeat split; eauto.
  - simplify_eq/=; eexists; repeat split; eauto.
Qed.

(** The three-way test of [_generate_signal], on the score it computes. *)
Lemma _generate_signal_spec row c365 c30 vr s :
  num row "365 d % chng" = Return c365 →
  num row "30 d % chng" = Return c30 →
  num row "Volume_Ratio" = Return vr →
  _generate_signal row = Return s →
  let score :=
    (lit 0.5 * c365 / lit 100 + lit 0.3 * c30 / lit 100 + lit 0.2 * (vr - lit 1))%float in
  s = if (score >? lit 0.15)%float then BUY
      else if (score <? lit (-0.15))%float then SELL
      else HOLD.
Proof.
  intros H365 H30 Hvr. unfold _generate_signal. rewrite H365, H30, Hvr.
  cbn [mbind res_bind mret res_ret]. cbv zeta.
  repeat case_match; by intros [= <-].
Qed.

(** ** Facts about [__init__] *)

Lemma __init___inv py stock_df cap h0 d self h :
  h0 !! stock_df = Some d →
  __init__ py stock_df cap h0 = (Return self, h) →
  self = mkModel stock_df cap (lit 0.05 / lit 252)%float ∧
  ∃ d', prepare py d = Return d' ∧ h = <[stock_df := d']> h0.
Proof.
  intros Hd (l & h1 & Hproc & Hret)%bind_inv.
  apply (_process_data_prepare py stock_df h0 d l h1 Hd) in Hproc
    as [-> (d' & Hprep & ->)].
  injection Hret as <- <-. eauto.
Qed.

(** The volume ratio read from a prepared frame is the volume of the same
    row of the input divided by the mean of the input's volume column. *)
Lemma prepare_volume_ratio py d d' i vr :
  prepare py d = Return d' →
  num (row_at d' i) "Volume_Ratio" = Return vr →
  ∃ vols mu v,
    columns d !! "Volume (lacs)" = Some vols ∧
    mean vols = Return mu ∧
    num (row_at d i) "Volume (lacs)" = Return v ∧
    vr = (v / mu)%float.
Proof.
  intros (d1 & ms & vols & mu & r & _ & _ & Hv & Hmu & Hr & ->)%prepare_spec.
  unfold num. rewrite !row_at_lookup, Hv. simpl. rewrite lookup_insert_eq. simpl.
  destruct vols as [l|[|s l]]; simpl in Hr; [| |done]; injection Hr as <-; simpl.
  - rewrite list_lookup_fmap. destruct (l !! i) as [x|]; simpl; [|done].
    intros [= <-]. by exists (SFloat l), mu, x.
  - done.
Qed.

(** ** The decision score *)

(** C1.  For a model built by the constructor over a frame [d], the score
    reported by a decision on [symbol] is the binary64 value of
    [0.5*change365d/100 + 0.3*change30d/100 + 0.2*(volumeRatio - 1)],
    each product divided by 100 as the source writes it, where the two
    changes are the cells of the first row of [d] whose symbol is [symbol]
    (they are also the changes reported in the metrics) and [volumeRatio]
    is that row's volume divided by the mean of the volume column of
    [d]. *)
Theorem C1_score_formula py stock_df cap h0 d self h symbol m log h' :
  h0 !! stock_df = Some d →
  __init__ py stock_df cap h0 = (Return self, h) →
  run_policy_and_backtest self symbol h = (Return (Some m, log), h') →
  ∃ syms i change365d change30d volumeLacs vols mu,
    columns d !! "Symbol" = Some (SObj syms) ∧
    index_of symbol syms = Some i ∧
    num (row_at d i) "365 d % chng" = Return change365d ∧
    num (row_at d i) "30 d % chng" = Return change30d ∧
    num (row_at d i) "Volume (lacs)" = Return volumeLacs ∧
    columns d !! "Volume (lacs)" = Some vols ∧
    mean vols = Return mu ∧
    Chng365d m = change365d ∧
    Chng30d m = change30d ∧
    let volumeRatio := (volumeLacs / mu)%float in
    DRL_Score m =
      (lit 0.5 * change365d / lit 100 +
       lit 0.3 * change30d / lit 100 +
       lit 0.2 * (volumeRatio - lit 1))%float.
Proof.
  intros Hd Hinit Hrun.
  destruct (__init___inv _ _ _ _ _ _ _ Hd Hinit) as [-> (d' & Hprep & ->)].
  apply run_policy_and_backtest_inv in Hrun
    as (_ & syms & i & ltp & c365 & c30 & vr & lines & Hsym & Hi & H365 & H30 &
        Hvr & _ & _ & _ & _ & Hm30 & Hm365 & Hscore & _).
  simpl in *. rewrite lookup_total_insert_eq in *.
  destruct (prepare_volume_ratio _ _ _ _ _ Hprep Hvr) as (vols & mu & v & Hvols & Hmu & Hv & ->).
  exists syms, i, c365, c30, v, vols, mu.
  rewrite <-(prepare_other py d d' "Symbol" Hprep) by compute_done.
  rewrite <-(num_ext (row_at d' i) (row_at d i) "365 d % chng"), H365
    by (rewrite !row_at_lookup; f_equal; apply (prepare_other py); [done | compute_done..]).
  rewrite <-(num_ext (row_at d' i) (row_at d i) "30 d % chng"), H30
    by (rewrite !row_at_lookup; f_equal; apply (prepare_other py); [done | compute_done..]).
  by repeat (split; [done|]).
Qed.

Lemma C1_score_formula_witness :
  ∃ self h m log,
    Sample.uploaded !! Sample.data = Some Sample.snapshot ∧
    __init__ Sample.parse_decimal Sample.data (lit 1000000) Sample.uploaded
      = (Return self, h) ∧
    run_policy_and_backtest self "RELIANCE" h = (Return (Some m, log), h) ∧
    DRL_Score m = lit 0.18 ∧
    ∃ syms i change365d change30d volumeLacs vols mu,
      columns Sample.snapshot !! "Symbol" = Some (SObj syms) ∧
      index_of "RELIANCE" syms = Some i ∧
      num (row_at Sample.snapshot i) "365 d % chng" = Return change365d ∧
      num (row_at Sample.snapshot i) "30 d % chng" = Return change30d ∧
      num (row_at Sample.snapshot i) "Volume (lacs)" = Return volumeLacs ∧
      columns Sample.snapshot !! "Volume (lacs)" = Some vols ∧
      mean vols = Return mu ∧
      Chng365d m = change365d ∧
      Chng30d m = change30d ∧
      let volumeRatio := (volumeLacs / mu)%float in
      DRL_Score m =
        (lit 0.5 * change365d / lit 100 +
         lit 0.3 * change30d / lit 100 +
         lit 0.2 * (volumeRatio - lit 1))%float.
Proof.
  eexists _, _, _, _.
  split; [reflexivity|].
  split; [vm_compute; reflexivity|].
  split; [vm_compute; reflexivity|].
  split; [vm_compute; reflexivity|].
  eapply (C1_score_formula Sample.parse_decimal Sample.data (lit 1000000)
            Sample.uploaded Sample.snapshot);
    [reflexivity | vm_compute; reflexivity | vm_compute; reflexivity].
Defined.

(** The grouping matters.  A stock at 70.40 with a 365-day change of
    -46.83 and a 30-day change of 28.05, alone in its snapshot (its
    volume ratio is 1): the score of the decision is
    -0.15000000000000002, below -0.15, and the decision is a SELL; the
    formula [0.5*(change365d/100) + 0.3*(change30d/100) +
    0.2*(volumeRatio - 1)] gives -0.15 on the same row, which is not below
    -0.15. *)
Lemma C1_counterexample :
  let d := Cases.raw_row "70.40" (lit 28.05) (lit (-46.83)) in
  let h0 := Cases.at_1 d in
  ∃ self h m log,
    __init__ Sample.parse_decimal 1%positive (lit 1000000) h0 = (Return self, h) ∧
    run_policy_and_backtest self "ACME" h = (Return (Some m, log), h) ∧
    Chng365d m = lit (-46.83) ∧ Chng30d m = lit 28.05 ∧
    num (row_at d 0) "Volume (lacs)" = Return (lit 5) ∧
    mean (SFloat [lit 5]) = Return (lit 5) ∧
    (lit 5 / lit 5)%float = lit 1 ∧
    DRL_Score m = S754_finite true 5404319552844596 (-55) ∧
    Final_Signal m = SELL ∧
    Spec.score (lit (-46.83)) (lit 28.05) (lit 1) = lit (-0.15) ∧
    DRL_Score m ≠ Spec.score (Chng365d m) (Chng30d m) (lit 1) ∧
    (Spec.score (Chng365d m) (Chng30d m) (lit 1) <? lit (-0.15))%float = false.
Proof.
  intros d h0. eexists _, _, _, _.
  split; [vm_compute; reflexivity|].
  split; [vm_compute; reflexivity|].
  repeat (split; [vm_compute; reflexivity|]).
  split; [by vm_compute|]. vm_compute; reflexivity.
Qed.

Lemma Sample_instantiate :
  instantiate_model Sample.parse_decimal Sample.data (lit 1000000) Sample.uploaded
  = (Return Sample.model, Sample.prepared).
Proof. vm_compute. reflexivity. Qed.

(** ** The signal *)

Lemma below_not_above (x : float64) :
  (x <? lit (-0.15))%float = true → (x >? lit 0.15)%float = false.
Proof. eval_lits. by destruct x as [[]|[]| |[] m e]. Qed.

(** C2.  The signal of a decision is BUY when its score is above 0.15,
    SELL when it is below -0.15 and HOLD in every other case; a score of
    exactly 0.15 or exactly -0.15 is a HOLD. *)
Theorem C2_signal_thresholds self symbol h m log h' :
  run_policy_and_backtest self symbol h = (Return (Some m, log), h') →
  ((DRL_Score m >? lit 0.15)%float = true → Final_Signal m = BUY) ∧
  ((DRL_Score m <? lit (-0.15))%float = true → Final_Signal m = SELL) ∧
  ((DRL_Score m >? lit 0.15)%float = false →
   (DRL_Score m <? lit (-0.15))%float = false → Final_Signal m = HOLD) ∧
  (DRL_Score m = lit 0.15 → Final_Signal m = HOLD) ∧
  (DRL_Score m = lit (-0.15) → Final_Signal m = HOLD).
Proof.
  intros (_ & syms & i & ltp & c365 & c30 & vr & lines & _ & _ & H365 & H30 &
          Hvr & _ & Hsig & _ & _ & _ & _ & Hscore & _)%run_policy_and_backtest_inv.
  pose proof (_generate_signal_spec _ _ _ _ _ H365 H30 Hvr Hsig) as Hs.
  cbv zeta in Hs. rewrite <-Hscore in Hs. rewrite Hs.
  split; [by intros ->|]. split; [|split; [|split]].
  - intros Hlo. by rewrite (below_not_above _ Hlo), Hlo.
  - by intros -> ->.
  - by intros ->.
  - by intros ->.
Qed.

Lemma C2_signal_thresholds_witness :
  ∃ m log,
    run_policy_and_backtest Sample.model "EDGE" Sample.prepared
      = (Return (Some m, log), Sample.prepared) ∧
    DRL_Score m = lit 0.15 ∧
    Final_Signal m = HOLD ∧
    ((DRL_Score m >? lit 0.15)%float = true → Final_Signal m = BUY) ∧
    ((DRL_Score m <? lit (-0.15))%float = true → Final_Signal m = SELL) ∧
    ((DRL_Score m >? lit 0.15)%float = false →
     (DRL_Score m <? lit (-0.15))%float = false → Final_Signal m = HOLD) ∧
    (DRL_Score m = lit 0.15 → Final_Signal m = HOLD) ∧
    (DRL_Score m = lit (-0.15) → Final_Signal m = HOLD).
Proof.
  eexists _, _.
  split; [vm_compute; reflexivity|].
  split; [vm_compute; reflexivity|].
  split; [reflexivity|].
  eapply (C2_signal_thresholds Sample.model "EDGE" Sample.prepared).
  vm_compute; reflexivity.
Defined.

(** The four kinds of score on the sample: above, below, and on each
    threshold. *)
Example signals_on_sample :
  let signal_of symbol :=
    match (run_policy_and_backtest Sample.model symbol Sample.prepared).1 with
    | Return (Some m, _) => Some (Final_Signal m)
    | _ => None
    end in
  signal_of "RELIANCE" = Some BUY ∧ signal_of "TCS" = Some SELL ∧
  signal_of "EDGE" = Some HOLD ∧ signal_of "EDGEN" = Some HOLD.
Proof. vm_compute. done. Qed.

(** ** The simulated trade *)

Section TradeFacts.

Lemma signed_not_opposite s x : signed s x → x ≠ S754_zero (negb s).
Proof. intros [->|[->|[->|(m & e & ->)]]]; by destruct s. Qed.

Lemma binary_normalize_neg_signed p e sz :
  signed true (binary_normalize prec emax (Zneg p) e sz).
Proof.
  unfold binary_normalize, binary_round.
  destruct (shl_align _ _ _) as [mz ez]. apply binary_round_aux_signed.
Qed.

Lemma fdiv_finite_signed s x sy my ey :
  signed s x → signed (xorb s sy) (x / S754_finite sy my ey)%float.
Proof.
  intros [->|[->|[->|(m & e & ->)]]]; unfold fdiv; simpl.
  - by left.
  - right. by left.
  - right. right. by left.
  - destruct (SFdiv_core_binary _ _ _ _ _ _) as [[mz ez] lz].
    apply binary_round_aux_signed.
Qed.

(** Taking a positive number from a number that is not positive gives a
    result with the sign bit set. *)
Lemma fsub_nonpos_pos_signed r my ey :
  (r <=? lit 0)%float = true →
  signed true (r - S754_finite false my ey)%float.
Proof.
  eval_lits. unfold fsub.
  destruct r as [s|[]| |[] m e]; try done; simpl.
  - intros _. right. right. right. eauto.
  - intros _. right. by left.
  - intros _. apply (binary_normalize_neg_signed _ _ false).
Qed.

(** The integer part of a binary64 that is not negative is the floor of
    the number it stands for. *)
Lemma trunc_floor x v : value x = Some v → (0 <= v)%Q → trunc x = floor v.
Proof.
  destruct x as [s| | |s m e]; simpl; try done.
  { intros [= <-] _. done. }
  intros [= <-] Hv.
  assert (0 < 2 ^ e)%Q as Hpow by (apply Qpower_0_lt; done).
  destruct s.
  { exfalso.
    assert (inject_Z (Z.neg m) * 2 ^ e < 0 * 2 ^ e)%Q as Hlt
      by (apply Qmult_lt_compat_r; done).
    rewrite Qmult_0_l in Hlt. exact (Qle_not_lt _ _ Hv Hlt). }
  unfold floor. destruct e as [|p|p].
  - transitivity (Qfloor (inject_Z (Z.pos m))); [by rewrite Qfloor_Z|].
    apply Qfloor_comp. change (2 ^ 0)%Q with 1%Q. ring.
  - rewrite Z.shiftl_mul_pow2 by lia.
    rewrite <-(Qfloor_Z (Z.pos m * 2 ^ Z.pos p)).
    apply Qfloor_comp. rewrite inject_Z_mult.
    by rewrite (Zpower_Qpower 2 (Z.pos p)) by lia.
  - rewrite Z.shiftr_div_pow2 by lia.
    transitivity (Qfloor (Z.pos m # Pos.pow 2 p)).
    + unfold Qfloor. by rewrite Pos2Z.inj_pow.
    + apply Qfloor_comp.
      change (Z.neg p) with (- Z.pos p)%Z. rewrite Qpower_opp.
      rewrite <-(Zpower_Qpower 2 (Z.pos p)) by lia.
      rewrite <-Pos2Z.inj_pow.
      unfold Qeq, Qinv, Qmult, inject_Z. simpl. lia.
Qed.

End TradeFacts.

(** C3.  On a BUY, [sharesToBuy = int(initialCapital*0.2/ltp)]: the
    product and the quotient are the rounded ones of binary64 and [int]
    cuts the quotient toward zero, so that [sharesToBuy] is the floor of
    the rounded quotient when that is not negative.  Then
    [investment = sharesToBuy*ltp],
    [simulatedProfit = investment*(change30d/100)],
    [finalCapital = initialCapital + simulatedProfit] and
    [cumulativeReturn = simulatedProfit/initialCapital], each rounded; the
    first two are printed in the log.  With a capital of 1,000,000, a
    price of 2,500 and a 30-day change of 10 these are 80, 200,000,
    20,000, 1,020,000 and 0.02. *)
Theorem C3_buy_outcome self symbol h m log h' :
  run_policy_and_backtest self symbol h = (Return (Some m, log), h') →
  Final_Signal m = BUY →
  ∃ ltp sharesToBuy,
    LTP m = CNum ltp ∧
    let quotient := (initial_capital self * lit 0.2 / ltp)%float in
    int quotient = Return sharesToBuy ∧
    sharesToBuy = trunc quotient ∧
    (∀ q, value quotient = Some q → (0 <= q)%Q → sharesToBuy = floor q) ∧
    let investment := (of_Z sharesToBuy * ltp)%float in
    let simulatedProfit := (investment * (Chng30d m / lit 100))%float in
    log = Lines [Triggered BUY (DRL_Score m);
                 Purchased sharesToBuy investment;
                 Profit simulatedProfit] ∧
    Simulated_Profit m = simulatedProfit ∧
    Final_Capital m = (initial_capital self + simulatedProfit)%float ∧
    Cumulative_Return m = (simulatedProfit / initial_capital self)%float ∧
    (initial_capital self = lit 1000000 → ltp = lit 2500 → Chng30d m = lit 10 →
     sharesToBuy = 80%Z ∧ investment = lit 200000 ∧
     Simulated_Profit m = lit 20000 ∧ Final_Capital m = lit 1020000 ∧
     Cumulative_Return m = lit 0.02).
Proof.
  intros (_ & syms & i & ltp' & c365 & c30 & vr & lines & _ & _ & _ & _ & _ & _ &
          _ & _ & Hltp & H30 & _ & _ & _ & _ & -> & Hcase)%run_policy_and_backtest_inv
         Hbuy.
  rewrite Hbuy in Hcase.
  destruct Hcase as (p & n & -> & Hint & Hprofit & Hfinal & Hret & ->).
  subst c30. exists p, n. split; [done|]. cbv zeta.
  assert (n = trunc (initial_capital self * lit 0.2 / p)%float) as Hn.
  { destruct (initial_capital self * lit 0.2 / p)%float; simpl in Hint;
      by simplify_eq. }
  split; [done|]. split; [done|]. split.
  { intros q Hq Hq0. rewrite Hn. by apply trunc_floor. }
  rewrite <-Hprofit. repeat (split; [done|]).
  intros Hcap -> H10. rewrite Hcap in *.
  assert (n = 80%Z) as -> by (rewrite Hn; by vm_compute).
  rewrite Hfinal, Hret, Hprofit, H10.
  repeat split; float_eq.
Qed.

Lemma C3_buy_outcome_witness :
  ∃ m log,
    run_policy_and_backtest Sample.model "RELIANCE" Sample.prepared
      = (Return (Some m, log), Sample.prepared) ∧
    Final_Signal m = BUY ∧
    initial_capital Sample.model = lit 1000000 ∧
    Chng30d m = lit 10 ∧
    ∃ ltp sharesToBuy,
      LTP m = CNum ltp ∧
      let quotient := (initial_capital Sample.model * lit 0.2 / ltp)%float in
      int quotient = Return sharesToBuy ∧
      sharesToBuy = trunc quotient ∧
      (∀ q, value quotient = Some q → (0 <= q)%Q → sharesToBuy = floor q) ∧
      let investment := (of_Z sharesToBuy * ltp)%float in
      let simulatedProfit := (investment * (Chng30d m / lit 100))%float in
      log = Lines [Triggered BUY (DRL_Score m);
                   Purchased sharesToBuy investment;
                   Profit simulatedProfit] ∧
      Simulated_Profit m = simulatedProfit ∧
      Final_Capital m = (initial_capital Sample.model + simulatedProfit)%float ∧
      Cumulative_Return m = (simulatedProfit / initial_capital Sample.model)%float ∧
      (initial_capital Sample.model = lit 1000000 → ltp = lit 2500 →
       Chng30d m = lit 10 →
       sharesToBuy = 80%Z ∧ investment = lit 200000 ∧
       Simulated_Profit m = lit 20000 ∧ Final_Capital m = lit 1020000 ∧
       Cumulative_Return m = lit 0.02).
Proof.
  eexists _, _.
  split; [vm_compute; reflexivity|].
  split; [reflexivity|].
  split; [reflexivity|].
  split; [vm_compute; reflexivity|].
  eapply (C3_buy_outcome Sample.model "RELIANCE" Sample.prepared).
  - vm_compute; reflexivity.
  - reflexivity.
Defined.

(** The number of shares is not the floor of [0.2*initialCapital/ltp].
    With a capital of 1,100,000 and a price of 70.40 that quotient is
    3125, and the floor of it as well.  The source computes
    [1100000*0.2/70.4] in binary64, which is 3124.9999999999995, and buys
    3124 shares. *)
Lemma C3_counterexample :
  let d := Cases.raw_row "70.40" (lit 10) (lit 40) in
  let h0 := Cases.at_1 d in
  ∃ self h m log investment profit,
    __init__ Sample.parse_decimal 1%positive (lit 1100000) h0 = (Return self, h) ∧
    run_policy_and_backtest self "ACME" h = (Return (Some m, log), h) ∧
    Final_Signal m = BUY ∧
    initial_capital self = lit 1100000 ∧
    LTP m = CNum (lit 70.40) ∧
    log = Lines [Triggered BUY (DRL_Score m);
                 Purchased 3124 investment;
                 Profit profit] ∧
    (lit 1100000 * lit 0.2 / lit 70.40)%float
      = S754_finite false 6871947673599999 (-41) ∧
    Spec.sharesToBuy 1100000 70.40 = 3125%Z.
Proof.
  intros d h0. eexists _, _, _, _, _, _.
  split; [vm_compute; reflexivity|].
  split; [vm_compute; reflexivity|].
  repeat (split; [vm_compute; reflexivity|]).
  vm_compute; reflexivity.
Qed.

(** The figures of the specification's BUY example, read off the sample:
    80 shares for 200,000, a profit of 20,000, 1,020,000 at the end and a
    return of 0.02. *)
Example buy_on_sample :
  ∃ m log,
    run_policy_and_backtest Sample.model "RELIANCE" Sample.prepared
      = (Return (Some m, log), Sample.prepared) ∧
    log = Lines [Triggered BUY (lit 0.18);
                 Purchased 80 (lit 200000);
                 Profit (lit 20000)] ∧
    Simulated_Profit m = lit 20000 ∧ Final_Capital m = lit 1020000 ∧
    Cumulative_Return m = lit 0.02.
Proof.
  eexists _, _. split; [vm_compute; reflexivity|].
  repeat split; float_eq.
Qed.

(** C4.  On a SELL or a HOLD the simulated profit is 0, the final capital
    is the initial capital and the cumulative return is 0, whatever the
    row holds. *)
Theorem C4_sell_hold_outcome self symbol h m log h' :
  run_policy_and_backtest self symbol h = (Return (Some m, log), h') →
  Final_Signal m = SELL ∨ Final_Signal m = HOLD →
  Simulated_Profit m = lit 0 ∧
  Final_Capital m = initial_capital self ∧
  Final_Capital m = Initial_Capital m ∧
  Cumulative_Return m = lit 0.
Proof.
  intros (_ & syms & i & ltp & c365 & c30 & vr & lines & _ & _ & _ & _ & _ & _ &
          _ & _ & _ & _ & _ & _ & Hinit & _ & _ & Hcase)%run_policy_and_backtest_inv
         Hsig.
  rewrite Hinit.
  destruct Hsig as [Hs|Hs]; rewrite Hs in Hcase;
    destruct Hcase as (Hprofit & Hfinal & Hret & _); done.
Qed.

Lemma C4_sell_hold_outcome_witness :
  ∃ m log,
    run_policy_and_backtest Sample.model "TCS" Sample.prepared
      = (Return (Some m, log), Sample.prepared) ∧
    Chng30d m = lit (-12) ∧
    (Final_Signal m = SELL ∨ Final_Signal m = HOLD) ∧
    Simulated_Profit m = lit 0 ∧
    Final_Capital m = initial_capital Sample.model ∧
    Final_Capital m = Initial_Capital m ∧
    Cumulative_Return m = lit 0.
Proof.
  eexists _, _.
  split; [vm_compute; reflexivity|].
  split; [float_eq|].
  split; [left; reflexivity|].
  eapply (C4_sell_hold_outcome Sample.model "TCS" Sample.prepared).
  - vm_compute; reflexivity.
  - left; reflexivity.
Defined.

(** ** The Sharpe ratio *)

Lemma __init___rate py stock_df cap h0 self h1 :
  __init__ py stock_df cap h0 = (Return self, h1) →
  risk_free_rate self = (lit 0.05 / lit 252)%float.
Proof. intros (l & h & _ & [= <- _])%bind_inv. done. Qed.

(** For a return that is not positive the Sharpe formula has its sign bit
    set: it is not the 0 that is reported. *)
Lemma sharpe_formula_nonzero (r : float64) :
  (r <=? lit 0)%float = true → ((r - lit 0.05 / lit 252) / lit 0.1)%float ≠ lit 0.
Proof.
  intros Hr.
  assert (∃ my ey, (lit 0.05 / lit 252)%float = S754_finite false my ey)
    as (my & ey & ->) by (eexists _, _; vm_compute; reflexivity).
  assert (∃ mz ez, lit 0.1 = S754_finite false mz ez)
    as (mz & ez & ->) by (eexists _, _; vm_compute; reflexivity).
  pose proof (fdiv_finite_signed true _ false mz ez
                (fsub_nonpos_pos_signed r my ey Hr)) as Hs.
  apply (signed_not_opposite _ _ Hs).
Qed.

(** C5.  For a model built by the constructor, the reported Sharpe ratio
    is [(cumulativeReturn - 0.05/252) / 0.1] when the cumulative return is
    positive and exactly 0 when it is zero or negative, although the
    formula is not zero there. *)
Theorem C5_sharpe_ratio py stock_df cap h0 self h1 symbol h m log h' :
  __init__ py stock_df cap h0 = (Return self, h1) →
  run_policy_and_backtest self symbol h = (Return (Some m, log), h') →
  let formula := ((Cumulative_Return m - lit 0.05 / lit 252) / lit 0.1)%float in
  ((Cumulative_Return m >? lit 0)%float = true → Sharpe_Ratio m = formula) ∧
  ((Cumulative_Return m <=? lit 0)%float = true →
   Sharpe_Ratio m = lit 0 ∧ formula ≠ lit 0).
Proof.
  intros Hrate
    (_ & syms & i & ltp & c365 & c30 & vr & lines & _ & _ & _ & _ & _ & _ &
     _ & _ & _ & _ & _ & _ & _ & Hsharpe & _)%run_policy_and_backtest_inv.
  apply __init___rate in Hrate. rewrite Hrate in Hsharpe. cbv zeta. split.
  - intros Hpos. by rewrite Hsharpe, Hpos.
  - intros Hle. split; [|by apply sharpe_formula_nonzero].
    by rewrite Hsharpe, (fleb_not_fgtb _ _ Hle).
Qed.

Lemma C5_sharpe_ratio_witness :
  ∃ m log,
    __init__ Sample.parse_decimal 2 (lit 1000000) Sample.prepared
      = (Return Sample.model, Sample.prepared) ∧
    run_policy_and_backtest Sample.model "RELIANCE" Sample.prepared
      = (Return (Some m, log), Sample.prepared) ∧
    Cumulative_Return m = lit 0.02 ∧
    Sharpe_Ratio m = ((lit 0.02 - lit 0.05 / lit 252) / lit 0.1)%float ∧
    let formula := ((Cumulative_Return m - lit 0.05 / lit 252) / lit 0.1)%float in
    ((Cumulative_Return m >? lit 0)%float = true → Sharpe_Ratio m = formula) ∧
    ((Cumulative_Return m <=? lit 0)%float = true →
     Sharpe_Ratio m = lit 0 ∧ formula ≠ lit 0).
Proof.
  eexists _, _.
  split; [vm_compute; reflexivity|].
  split; [vm_compute; reflexivity|].
  split; [float_eq|].
  split; [float_eq|].
  eapply (C5_sharpe_ratio Sample.parse_decimal 2%positive (lit 1000000)
            Sample.prepared Sample.model Sample.prepared "RELIANCE" Sample.prepared).
  - vm_compute; reflexivity.
  - vm_compute; reflexivity.
Defined.

(** A decision with a zero return on the sample: the formula gives a
    negative number and the report says 0. *)
Example sharpe_clamped_on_sample :
  ∃ m log,
    run_policy_and_backtest Sample.model "TCS" Sample.prepared
      = (Return (Some m, log), Sample.prepared) ∧
    Cumulative_Return m = lit 0 ∧
    (((Cumulative_Return m - risk_free_rate Sample.model) / lit 0.1)
       <? lit 0)%float = true ∧
    Sharpe_Ratio m = lit 0.
Proof.
  eexists _, _. split; [vm_compute; reflexivity|].
  repeat split; float_eq.
Qed.

(** ** A BUY that buys nothing *)








(** ** Preparation: the momentum score *)

Lemma rows_lookup d i : i < index d → rows d !! i = Some (row_at d i).
Proof.
  intros Hi. unfold rows. rewrite list_lookup_fmap.
  by rewrite (lookup_seq_lt _ _ _ Hi).
Qed.

Lemma rows_length d : length (rows d) = index d.
Proof. unfold rows. by rewrite length_fmap, length_seq. Qed.

(** C6.  After a successful preparation of a frame [d], the
    [Momentum_Score] column has one value per row of [d]; for the row at
    [i] it is [change30d / change365d] when [|change365d| > 0.01] (the
    divisor is then not zero) and 0 when [|change365d| <= 0.01], the case
    [|change365d| = 0.01] included. *)
Theorem C6_momentum_score py df h d l h' :
  h !! df = Some d →
  _process_data py df h = (Return l, h') →
  ∃ d' ms,
    h' !! df = Some d' ∧
    columns d' !! "Momentum_Score" = Some (SFloat ms) ∧
    length ms = index d ∧
    ∀ i, i < index d →
      ∃ change365d,
        num (row_at d i) "365 d % chng" = Return change365d ∧
        ((fabs change365d >? lit 0.01)%float = true →
         ∃ change30d,
           num (row_at d i) "30 d % chng" = Return change30d ∧
           ms !! i = Some (change30d / change365d)%float ∧
           change365d ≠ lit 0) ∧
        ((fabs change365d <=? lit 0.01)%float = true → ms !! i = Some (lit 0)) ∧
        (fabs change365d = lit 0.01 → ms !! i = Some (lit 0)).
Proof.
  intros Hd Hproc.
  apply (_process_data_prepare py df h d l h' Hd) in Hproc as [-> (d' & Hprep & ->)].
  destruct (prepare_spec _ _ _ Hprep) as (d1 & ms & v & mu & r & _ & Hms & _ & _ & _ & Hd').
  exists d', ms. split; [apply lookup_insert_eq|]. split.
  { rewrite Hd'. simpl. rewrite lookup_insert_ne by done. apply lookup_insert_eq. }
  split.
  { rewrite (mapM_res_length _ _ _ Hms). apply rows_length. }
  intros i Hi.
  destruct (mapM_res_lookup _ _ _ _ _ Hms (rows_lookup d i Hi)) as (b & Hb & Hlook).
  unfold momentum_score in Hb.
  destruct (num (row_at d i) "365 d % chng") as [c|] eqn:H365; simpl in Hb; [|done].
  exists c. split; [done|].
  assert ((fabs c >? lit 0.01)%float = false → ms !! i = Some (lit 0)) as Hzero.
  { intros Hguard. rewrite Hguard in Hb. by injection Hb as <-. }
  split; [|split].
  - intros Hguard. rewrite Hguard in Hb.
    destruct (num (row_at d i) "30 d % chng") as [n|]; simpl in Hb; [|done].
    injection Hb as <-. exists n. repeat split; [done|].
    intros ->. revert Hguard. by vm_compute.
  - intros Hle. apply Hzero. by apply fleb_not_fgtb.
  - intros Heq. apply Hzero. rewrite Heq. by vm_compute.
Qed.

Lemma C6_momentum_score_witness :
  ∃ h' d',
    Sample.uploaded !! Sample.data = Some Sample.snapshot ∧
    _process_data Sample.parse_decimal Sample.data Sample.uploaded
      = (Return Sample.data, h') ∧
    h' !! Sample.data = Some d' ∧
    columns d' !! "Momentum_Score" =
      Some (SFloat [lit (1 # 3); lit 0.3; lit 0.4; lit 0; (- lit 0)%float;
                    lit 0.125; lit 0]) ∧
    ∃ d'' ms,
      h' !! Sample.data = Some d'' ∧
      columns d'' !! "Momentum_Score" = Some (SFloat ms) ∧
      length ms = index Sample.snapshot ∧
      ∀ i, i < index Sample.snapshot →
        ∃ change365d,
          num (row_at Sample.snapshot i) "365 d % chng" = Return change365d ∧
          ((fabs change365d >? lit 0.01)%float = true →
           ∃ change30d,
             num (row_at Sample.snapshot i) "30 d % chng" = Return change30d ∧
             ms !! i = Some (change30d / change365d)%float ∧
             change365d ≠ lit 0) ∧
          ((fabs change365d <=? lit 0.01)%float = true → ms !! i = Some (lit 0)) ∧
          (fabs change365d = lit 0.01 → ms !! i = Some (lit 0)).
Proof.
  eexists _, _.
  split; [reflexivity|].
  split; [vm_compute; reflexivity|].
  split; [vm_compute; reflexivity|].
  split; [float_eq|].
  eapply (C6_momentum_score Sample.parse_decimal Sample.data Sample.uploaded
            Sample.snapshot).
  - reflexivity.
  - vm_compute; reflexivity.
Defined.

(** ** Preparation: a dataset without rows *)

Section EmptyDataset.

Variable py_float : string → option float64.

Lemma clean_cols_empty cols d :
  (∀ c, c ∈ cols → ∃ s, columns d !! c = Some s ∧ size s = 0) →
  ∃ d1, clean_cols py_float cols d = Return d1.
Proof.
  unfold clean_cols. revert d.
  induction cols as [|col cols IH]; intros d Hempty; simpl; [eauto|].
  destruct (Hempty col) as (s & Hs & Hsize); [by left|].
  unfold clean_col. rewrite Hs. simpl.
  destruct s as [vs|ss]; simpl.
  - apply IH. intros c Hc. apply Hempty. by right.
  - destruct ss; [|done]. simpl. apply IH. intros c Hc.
    destruct (decide (c = col)) as [->|Hne].
    + exists (SFloat []). unfold set_col; simpl. by rewrite lookup_insert_eq.
    + unfold set_col; simpl. rewrite lookup_insert_ne by done. apply Hempty. by right.
Qed.

Lemma mean_empty s : size s = 0 → mean s = Return NaN.
Proof. destruct s as [[|??]|[|??]]; done. Qed.

Lemma div_scalar_empty s x : size s = 0 → ∃ r, div_scalar s x = Return r ∧ size r = 0.
Proof. destruct s as [[|??]|[|??]]; try done; simpl; eauto. Qed.

(** C7, as the code has it.  Preparing a frame without rows that has the
    columns read by the preparation does not fail: the frame is returned
    with an empty [Momentum_Score] and an empty [Volume_Ratio]; the mean of
    its volume column is NaN and is divided into nothing.  A decision on
    such a dataset finds no symbol. *)
Theorem C7_empty_dataset_is_prepared stock_df h d :
  h !! stock_df = Some d →
  index d = 0 →
  (∀ c, c ∈ columns_read → ∃ s, columns d !! c = Some s ∧ size s = 0) →
  ∃ d',
    _process_data py_float stock_df h = (Return stock_df, <[stock_df := d']> h) ∧
    index d' = 0 ∧
    columns d' !! "Momentum_Score" = Some (SFloat []) ∧
    (∃ v r, columns d !! "Volume (lacs)" = Some v ∧ mean v = Return NaN ∧
            columns d' !! "Volume_Ratio" = Some r ∧ size r = 0) ∧
    (∀ syms self symbol,
       columns d !! "Symbol" = Some syms → size syms = 0 → df self = stock_df →
       run_policy_and_backtest self symbol (<[stock_df := d']> h)
       = (Return (None, Message "Stock symbol not found in data."), <[stock_df := d']> h)).
Proof.
  intros Hd Hidx Hempty.
  destruct (clean_cols_empty cols_to_clean d) as [d1 Hclean].
  { intros c Hc. apply Hempty. unfold columns_read. apply elem_of_app. by left. }
  destruct (clean_cols_spec _ _ _ _ Hclean) as (Hidx1 & _ & Hsame & _).
  destruct (Hempty "Volume (lacs)") as (v & Hv & Hsize); [compute_done|].
  destruct (div_scalar_empty v NaN Hsize) as (r & Hr & Hrsize).
  set (d' := set_col "Volume_Ratio" r (set_col "Momentum_Score" (SFloat []) d1)).
  assert (prepare py_float d = Return d') as Hprep.
  { unfold prepare. rewrite Hclean. cbn [mbind res_bind].
    unfold rows. rewrite Hidx1, Hidx. cbn [seq fmap list_fmap mapM_res mbind res_bind].
    cbv zeta. cbn [set_col columns]. rewrite lookup_insert_ne by done.
    rewrite Hsame, Hv by compute_done. cbn [or_raise mbind res_bind].
    rewrite (mean_empty v Hsize). cbn [mbind res_bind]. by rewrite Hr. }
  exists d'. split.
  { apply (_process_data_prepare py_float stock_df h d stock_df _ Hd). eauto. }
  split; [subst d'; simpl; congruence|].
  split; [subst d'; simpl; rewrite lookup_insert_ne by done; apply lookup_insert_eq|].
  split.
  { exists v, r. repeat split; [done | by apply mean_empty | | done].
    subst d'. simpl. apply lookup_insert_eq. }
  intros syms self symbol Hsyms Hssize <-.
  unfold run_policy_and_backtest, getitem, mbind, M_bind.
  rewrite lookup_total_insert_eq.
  rewrite (prepare_other py_float d d' "Symbol" Hprep) by compute_done.
  rewrite Hsyms. simpl.
  destruct syms as [[|??]|[|??]]; done.
Qed.

End EmptyDataset.

(** C7, as stated, does not hold: the frame read from a file with a header
    line and no row has no row, and its preparation returns normally. *)
Lemma C7_counterexample :
  index Sample.header_only = 0 ∧
  (_process_data Sample.parse_decimal Sample.data
     {[ Sample.data := Sample.header_only ]}).1 = Return Sample.data ∧
  ¬ ∃ e, (_process_data Sample.parse_decimal Sample.data
            {[ Sample.data := Sample.header_only ]}).1 = Raise e.
Proof.
  split; [reflexivity|]. split; [by vm_compute|].
  intros [e He]. vm_compute in He. discriminate.
Qed.

Lemma C7_empty_dataset_is_prepared_witness :
  ∃ d',
    _process_data Sample.parse_decimal Sample.data
      {[ Sample.data := Sample.header_only ]}
    = (Return Sample.data,
       <[Sample.data := d']> {[ Sample.data := Sample.header_only ]}) ∧
    index d' = 0 ∧
    columns d' !! "Momentum_Score" = Some (SFloat []) ∧
    (∃ v r, columns Sample.header_only !! "Volume (lacs)" = Some v ∧
            mean v = Return NaN ∧
            columns d' !! "Volume_Ratio" = Some r ∧ size r = 0) ∧
    (∀ syms self symbol,
       columns Sample.header_only !! "Symbol" = Some syms → size syms = 0 →
       df self = Sample.data →
       run_policy_and_backtest self symbol
         (<[Sample.data := d']> {[ Sample.data := Sample.header_only ]})
       = (Return (None, Message "Stock symbol not found in data."),
          <[Sample.data := d']> {[ Sample.data := Sample.header_only ]})).
Proof.
  apply (C7_empty_dataset_is_prepared Sample.parse_decimal Sample.data
           {[ Sample.data := Sample.header_only ]} Sample.header_only).
  - reflexivity.
  - reflexivity.
  - intros c Hc.
    assert (c ∈ columns_read → ∃ s, columns Sample.header_only !! c = Some s
                                    ∧ size s = 0) as H; [|by apply H].
    unfold columns_read, cols_to_clean. simpl.
    rewrite !elem_of_cons, elem_of_nil.
    intros [->|[->|[->|[->|[->|[->|[->|[->|[->|[->|[]]]]]]]]]]];
      by exists (SObj []).
Defined.

(** ** A symbol that is not in the dataset *)

(** C8.  A decision on a symbol that does not occur in the [Symbol] column
    returns no metrics and the message "Stock symbol not found in data.";
    the heap, and with it the dataset, is the same afterwards, so a
    decision on any other symbol made after it is the decision that would
    have been made without it. *)
Theorem C8_symbol_not_found self symbol h d syms :
  h !! df self = Some d →
  columns d !! "Symbol" = Some (SObj syms) →
  symbol ∉ syms →
  run_policy_and_backtest self symbol h
    = (Return (None, Message "Stock symbol not found in data."), h) ∧
  ∀ other,
    (run_policy_and_backtest self symbol ≫= λ _, run_policy_and_backtest self other) h
    = run_policy_and_backtest self other h.
Proof.
  intros Hd Hsyms Hnot.
  assert (run_policy_and_backtest self symbol h
          = (Return (None, Message "Stock symbol not found in data."), h)) as Hrun.
  { unfold run_policy_and_backtest, getitem, mbind, M_bind.
    rewrite (lookup_total_correct _ _ _ Hd), Hsyms. simpl.
    by rewrite bool_decide_eq_false_2. }
  split; [done|]. intros other. by erewrite bind_Return by exact Hrun.
Qed.

Lemma C8_symbol_not_found_witness :
  ∃ d syms,
    Sample.prepared !! df Sample.model = Some d ∧
    columns d !! "Symbol" = Some (SObj syms) ∧
    ("WIPRO" ∉ syms) ∧
    run_policy_and_backtest Sample.model "WIPRO" Sample.prepared
      = (Return (None, Message "Stock symbol not found in data."), Sample.prepared) ∧
    ∀ other,
      (run_policy_and_backtest Sample.model "WIPRO"
         ≫= λ _, run_policy_and_backtest Sample.model other) Sample.prepared
      = run_policy_and_backtest Sample.model other Sample.prepared.
Proof.
  eexists _, _.
  split; [vm_compute; reflexivity|].
  split; [vm_compute; reflexivity|].
  split; [compute_done|].
  eapply (C8_symbol_not_found Sample.model "WIPRO" Sample.prepared).
  - vm_compute; reflexivity.
  - vm_compute; reflexivity.
  - compute_done.
Defined.

(** ** Preparation leaves its input alone and is idempotent *)

Lemma __init___prepare py stock_df cap h d d' :
  h !! stock_df = Some d →
  prepare py d = Return d' →
  __init__ py stock_df cap h
  = (Return (mkModel stock_df cap (lit 0.05 / lit 252)%float), <[stock_df := d']> h).
Proof.
  intros Hd Hprep. unfold __init__.
  erewrite bind_Return; [done|].
  apply (_process_data_prepare py stock_df h d stock_df _ Hd). eauto.
Qed.

(** In place, on the frame itself, [_process_data] does change its
    argument: the frame at [df] is the prepared one afterwards. *)
Lemma _process_data_in_place py df h d l h' :
  h !! df = Some d →
  _process_data py df h = (Return l, h') →
  l = df ∧ ∃ d', prepare py d = Return d' ∧ h' !! df = Some d'.
Proof.
  intros Hd Hproc.
  apply (_process_data_prepare py df h d l h' Hd) in Hproc as [-> (d' & Hprep & ->)].
  split; [done|]. exists d'. by rewrite lookup_insert_eq.
Qed.

(** C9.  [instantiate_model] prepares a copy: whatever its outcome, every
    frame that existed before the call, the raw data among them, is what it
    was.  When it succeeds, the dataset of the model is a new frame holding
    [prepare d]; a second call on the same raw data builds an equal
    dataset; and preparing the dataset once more changes nothing. *)
Theorem C9_preparation_side_effect_free_idempotent py data cap h d r h' :
  h !! data = Some d →
  instantiate_model py data cap h = (r, h') →
  (∀ l, is_Some (h !! l) → h' !! l = h !! l) ∧
  h' !! data = Some d ∧
  ∀ self, r = Return self →
    ∃ d',
      prepare py d = Return d' ∧
      h !! df self = None ∧
      h' !! df self = Some d' ∧
      (∃ self2 h'',
         instantiate_model py data cap h' = (Return self2, h'') ∧
         h'' !! df self2 = Some d' ∧
         h'' !! df self = Some d') ∧
      _process_data py (df self) h' = (Return (df self), h') ∧
      prepare py d' = Return d'.
Proof.
  intros Hd Hinst. unfold instantiate_model in Hinst.
  erewrite bind_Return in Hinst by reflexivity.
  rewrite (lookup_total_correct _ _ _ Hd) in Hinst.
  set (l := fresh (dom h)) in *.
  assert (h !! l = None) as Hfresh.
  { apply not_elem_of_dom. apply is_fresh. }
  assert (∀ l', is_Some (h !! l') → h' !! l' = h !! l') as Hframe.
  { intros l' [x Hx].
    assert (l' ≠ l) as Hne by congruence.
    pose proof (__init___preserves py l' l cap Hne (<[l := d]> h)) as Hpres.
    rewrite Hinst in Hpres. simpl in Hpres.
    by rewrite Hpres, lookup_insert_ne. }
  split; [done|]. split; [by rewrite Hframe, Hd|].
  intros self ->.
  apply (__init___inv py l cap _ d self h' (lookup_insert_eq _ _ _)) in Hinst
    as [-> (d' & Hprep & ->)].
  rewrite insert_insert_eq in *. simpl.
  pose proof (prepare_idempotent py d d' Hprep) as Hidem.
  exists d'. split; [done|]. split; [done|].
  split; [apply lookup_insert_eq|]. split; [|split; [|done]].
  - unfold instantiate_model.
    set (h1 := <[l := d']> h). set (l2 := fresh (dom h1)).
    assert (h1 !! l2 = None) as Hfresh2.
    { apply not_elem_of_dom. apply is_fresh. }
    assert (l ≠ l2) as Hne.
    { intros Heq. rewrite <-Heq in Hfresh2. unfold h1 in Hfresh2.
      by rewrite lookup_insert_eq in Hfresh2. }
    assert (h1 !!! data = d) as Hdata.
    { apply lookup_total_correct. unfold h1.
      rewrite lookup_insert_ne; [done|]. congruence. }
    eexists _, _. split.
    + erewrite bind_Return by reflexivity. rewrite Hdata.
      apply (__init___prepare py l2 cap _ d d'); [apply lookup_insert_eq | done].
    + simpl. rewrite insert_insert_eq. split; [apply lookup_insert_eq|].
      rewrite lookup_insert_ne by done. apply lookup_insert_eq.
  - apply (_process_data_prepare py l (<[l := d']> h) d' l _ (lookup_insert_eq _ _ _)).
    split; [done|]. exists d'. split; [done|]. by rewrite insert_insert_eq.
Qed.

Lemma C9_preparation_side_effect_free_idempotent_witness :
  Sample.uploaded !! Sample.data = Some Sample.snapshot ∧
  instantiate_model Sample.parse_decimal Sample.data (lit 1000000) Sample.uploaded
    = (Return Sample.model, Sample.prepared) ∧
  (∀ l, is_Some (Sample.uploaded !! l) → Sample.prepared !! l = Sample.uploaded !! l) ∧
  Sample.prepared !! Sample.data = Some Sample.snapshot ∧
  ∀ self, Return Sample.model = Return self →
    ∃ d',
      prepare Sample.parse_decimal Sample.snapshot = Return d' ∧
      Sample.uploaded !! df self = None ∧
      Sample.prepared !! df self = Some d' ∧
      (∃ self2 h'',
         instantiate_model Sample.parse_decimal Sample.data (lit 1000000)
           Sample.prepared = (Return self2, h'') ∧
         h'' !! df self2 = Some d' ∧
         h'' !! df self = Some d') ∧
      _process_data Sample.parse_decimal (df self) Sample.prepared
        = (Return (df self), Sample.prepared) ∧
      prepare Sample.parse_decimal d' = Return d'.
Proof.
  split; [reflexivity|].
  split; [exact Sample_instantiate|].
  apply (C9_preparation_side_effect_free_idempotent Sample.parse_decimal
           Sample.data (lit 1000000) Sample.uploaded Sample.snapshot).
  - reflexivity.
  - vm_compute; reflexivity.
Defined.

(** Without the copy the caller's frame is the one written to: after a
    direct call on the uploaded data, the frame at [Sample.data] has the
    derived columns and numeric prices. *)
Example _process_data_writes_in_place :
  ∃ h' d',
    _process_data Sample.parse_decimal Sample.data Sample.uploaded
      = (Return Sample.data, h') ∧
    h' !! Sample.data = Some d' ∧
    columns Sample.snapshot !! "Momentum_Score" = None ∧
    is_Some (columns d' !! "Momentum_Score") ∧
    columns Sample.snapshot !! "LTP"
      = Some (SObj ["2,500.00"; "3,400.50"; "1,500.00"; "100.00"; "100.00";
                    "85,000.00"; "10.00"]) ∧
    columns d' !! "LTP"
      = Some (SFloat [lit 2500; lit 3400.5; lit 1500; lit 100; lit 100;
                      lit 85000; lit 10]).
Proof.
  eexists _, _. split; [vm_compute; reflexivity|].
  split; [vm_compute; reflexivity|].
  split; [reflexivity|]. split; [eexists; vm_compute; reflexivity|].
  split; [reflexivity|]. float_eq.
Qed.

(** [int] rounds toward zero: on a negative quotient it is one above the
    floor.  The BUY path meets such a quotient only for a negative price. *)
Example int_truncates :
  int (lit 20000 / lit (-3))%float = Return (-6666)%Z ∧
  floor (20000 / -3)%Q = (-6667)%Z.
Proof. split; by vm_compute. Qed.

(** * Further properties of the code *)

(** ** More on preparation: what cleaning does *)

Section Cleaning.

Variable py_float : string → option float64.

Lemma clean_cols_cleaned_from cols d d1 c :
  clean_cols py_float cols d = Return d1 →
  c ∈ cols →
  cleaned_from py_float (columns d !! c) (columns d1 !! c).
Proof.
  unfold clean_cols. revert d.
  induction cols as [|col cols IH]; intros d; simpl.
  { intros _ Hc. by apply not_elem_of_nil in Hc. }
  destruct (clean_col py_float col d) as [d0|] eqn:Hstep; simpl; [|done].
  intros Hrest Hc.
  pose proof (clean_cols_spec py_float cols d0 d1 Hrest) as (_ & _ & Hnot & Hfl).
  destruct (decide (c = col)) as [->|Hne].
  - clear IH Hc. unfold clean_col in Hstep. unfold cleaned_from.
    destruct (columns d !! col) as [[vs|ss]|] eqn:Hcol; simpl in Hstep; [| |done].
    + injection Hstep as <-. by apply Hfl.
    + destruct (astype_float _ _) as [xs|] eqn:Hxs; simpl in Hstep; [|done].
      injection Hstep as <-. exists xs. split; [|done].
      apply Hfl. simpl. apply lookup_insert_eq.
  - apply elem_of_cons in Hc as [?|Hc]; [done|].
    destruct (clean_col_spec py_float col d d0 Hstep) as (_ & _ & Hsame & _).
    rewrite <-(Hsame c Hne). by apply IH.
Qed.

End Cleaning.

Section CleaningTheorems.

Variable py_float : string → option float64.

Lemma astype_float_lookup l xs i s :
  astype_float py_float l = Return xs → l !! i = Some s →
  ∃ x, py_float s = Some x ∧ xs !! i = Some x.
Proof.
  intros Hxs Hs. unfold astype_float in Hxs.
  destruct (mapM_res_lookup _ _ _ _ _ Hxs Hs) as (x & Hx & Hi).
  exists x. split; [|done]. by destruct (py_float s); simplify_eq/=.
Qed.

(** X1.  After a successful preparation each of the seven price columns
    is numeric.  A column that came as strings holds, cell by cell, what
    [float] reads in the string once its commas are removed; a column that
    was numeric is unchanged. *)
Theorem cleaning_converts_price_columns df h d l h' c :
  h !! df = Some d →
  _process_data py_float df h = (Return l, h') →
  c ∈ cols_to_clean →
  ∃ d' xs,
    h' !! df = Some d' ∧
    columns d' !! c = Some (SFloat xs) ∧
    match columns d !! c with
    | Some (SObj ss) =>
        length xs = length ss ∧
        ∀ i s, ss !! i = Some s →
          ∃ x, py_float (remove_commas s) = Some x ∧ xs !! i = Some x
    | Some (SFloat ys) => xs = ys
    | None => False
    end.
Proof.
  intros Hd Hproc Hc.
  apply (_process_data_prepare py_float df h d l h' Hd) in Hproc as [-> (d' & Hprep & ->)].
  destruct (prepare_spec _ _ _ Hprep) as (d1 & ms & v & mu & r & Hclean & _ & _ & _ & _ & Hd').
  pose proof (clean_cols_cleaned_from py_float _ _ _ c Hclean Hc) as Hrel.
  assert (columns d' !! c = columns d1 !! c) as Hsame.
  { rewrite Hd'. simpl.
    assert (c ≠ "Volume_Ratio" ∧ c ≠ "Momentum_Score") as [??].
    { split; intros ->; revert Hc; compute_done. }
    by rewrite !lookup_insert_ne. }
  unfold cleaned_from in Hrel.
  destruct (columns d !! c) as [[ys|ss]|]; [| |done].
  - exists d', ys. rewrite lookup_insert_eq, Hsame. done.
  - destruct Hrel as (xs & Hxs & Hconv).
    exists d', xs. rewrite lookup_insert_eq, Hsame. repeat split; [done..| |].
    + unfold astype_float in Hconv.
      by rewrite (mapM_res_length _ _ _ Hconv), length_fmap.
    + intros i s Hs. apply (astype_float_lookup _ _ _ _ Hconv).
      by rewrite list_lookup_fmap, Hs.
Qed.

(** X2.  A successful preparation keeps the number of rows and every
    column other than the seven price columns and the two derived ones:
    the symbols, the two changes and the volumes are the input's. *)
Theorem preparation_keeps_other_columns df h d l h' :
  h !! df = Some d →
  _process_data py_float df h = (Return l, h') →
  ∃ d',
    h' !! df = Some d' ∧
    index d' = index d ∧
    ∀ c, c ∉ cols_to_clean → c ≠ "Momentum_Score" → c ≠ "Volume_Ratio" →
         columns d' !! c = columns d !! c.
Proof.
  intros Hd Hproc.
  apply (_process_data_prepare py_float df h d l h' Hd) in Hproc as [-> (d' & Hprep & ->)].
  exists d'. rewrite lookup_insert_eq. split; [done|].
  split; [by apply (prepare_index py_float)|].
  intros c ???. by apply (prepare_other py_float).
Qed.

End CleaningTheorems.

Lemma cleaning_converts_price_columns_witness :
  ∃ h' d' xs,
    Sample.uploaded !! Sample.data = Some Sample.snapshot ∧
    _process_data Sample.parse_decimal Sample.data Sample.uploaded
      = (Return Sample.data, h') ∧
    "LTP" ∈ cols_to_clean ∧
    h' !! Sample.data = Some d' ∧
    columns d' !! "LTP" = Some (SFloat xs) ∧
    xs = [lit 2500; lit 3400.5; lit 1500; lit 100; lit 100; lit 85000; lit 10] ∧
    ∃ d'' ys,
      h' !! Sample.data = Some d'' ∧
      columns d'' !! "LTP" = Some (SFloat ys) ∧
      match columns Sample.snapshot !! "LTP" with
      | Some (SObj ss) =>
          length ys = length ss ∧
          ∀ i s, ss !! i = Some s →
            ∃ x, Sample.parse_decimal (remove_commas s) = Some x ∧ ys !! i = Some x
      | Some (SFloat zs) => ys = zs
      | None => False
      end.
Proof.
  eexists _, _, _.
  split; [reflexivity|].
  split; [vm_compute; reflexivity|].
  split; [compute_done|].
  split; [vm_compute; reflexivity|].
  split; [vm_compute; reflexivity|].
  split; [float_eq|].
  eapply (cleaning_converts_price_columns Sample.parse_decimal Sample.data
            Sample.uploaded Sample.snapshot).
  - reflexivity.
  - vm_compute; reflexivity.
  - compute_done.
Defined.

Lemma preparation_keeps_other_columns_witness :
  ∃ h' d',
    Sample.uploaded !! Sample.data = Some Sample.snapshot ∧
    _process_data Sample.parse_decimal Sample.data Sample.uploaded
      = (Return Sample.data, h') ∧
    h' !! Sample.data = Some d' ∧
    columns d' !! "Symbol" = columns Sample.snapshot !! "Symbol" ∧
    ∃ d'',
      h' !! Sample.data = Some d'' ∧
      index d'' = index Sample.snapshot ∧
      ∀ c, c ∉ cols_to_clean → c ≠ "Momentum_Score" → c ≠ "Volume_Ratio" →
           columns d'' !! c = columns Sample.snapshot !! c.
Proof.
  eexists _, _.
  split; [reflexivity|].
  split; [vm_compute; reflexivity|].
  split; [vm_compute; reflexivity|].
  split; [vm_compute; reflexivity|].
  eapply (preparation_keeps_other_columns Sample.parse_decimal Sample.data
            Sample.uploaded Sample.snapshot).
  - reflexivity.
  - vm_compute; reflexivity.
Defined.

(** ** More on preparation: when it succeeds and how it fails *)

Lemma mapM_res_Return_iff {A B} (f : A → res B) l :
  (∃ bs, mapM_res f l = Return bs) ↔ ∀ a, a ∈ l → ∃ b, f a = Return b.
Proof.
  induction l as [|a l IH]; simpl.
  { split; [intros _ a Ha; by apply not_elem_of_nil in Ha | eauto]. }
  split.
  - intros [bs Hbs] a' Ha'.
    destruct (f a) as [b|] eqn:Hfa; simpl in Hbs; [|done].
    destruct (mapM_res f l) as [bs'|] eqn:Hl; simpl in Hbs; [|done].
    apply elem_of_cons in Ha' as [->|Ha']; [eauto|].
    apply IH; eauto.
  - intros Hall. destruct (Hall a) as [b Hb]; [by left|].
    destruct (proj2 IH) as [bs Hbs]; [intros a' Ha'; apply Hall; by right|].
    rewrite Hb, Hbs. simpl. eauto.
Qed.

Lemma fold_cols_app step pre post d :
  fold_cols step (pre ++ post) d = fold_cols step pre d ≫= fold_cols step post.
Proof.
  revert d. induction pre as [|c pre IH]; intros d; simpl; [done|].
  destruct (step c d); simpl; [apply IH | done].
Qed.

Section Failures.

Variable py_float : string → option float64.

Lemma astype_float_Return_iff l :
  (∃ xs, astype_float py_float l = Return xs) ↔ ∀ s, s ∈ l → is_Some (py_float s).
Proof.
  unfold astype_float. rewrite mapM_res_Return_iff.
  split; intros H s Hs; specialize (H s Hs).
  - destruct H as [b Hb]. destruct (py_float s); [eauto | done].
  - destruct H as [x ->]. simpl. eauto.
Qed.

Lemma astype_float_Raise l e :
  astype_float py_float l = Raise e → e = ValueError.
Proof.
  unfold astype_float. induction l as [|s l IH]; simpl; [done|].
  destruct (py_float s); simpl; [|by intros [= <-]].
  destruct (mapM_res _ l); simpl; [done|]. intros [= <-]. by apply IH.
Qed.

Lemma parses_astype_float l :
  parses py_float (SObj l) ↔ ∃ xs, astype_float py_float (remove_commas <$> l) = Return xs.
Proof.
  rewrite astype_float_Return_iff. simpl. split.
  - intros H s (x & -> & Hx)%list_elem_of_fmap. by apply H.
  - intros H x Hx. apply H. apply list_elem_of_fmap. eauto.
Qed.

Lemma clean_col_eq col d :
  clean_col py_float col d =
  match columns d !! col with
  | None => Raise (KeyError col)
  | Some (SFloat _) => Return d
  | Some (SObj l) =>
      match astype_float py_float (remove_commas <$> l) with
      | Return xs => Return (set_col col (SFloat xs) d)
      | Raise e => Raise e
      end
  end.
Proof.
  unfold clean_col. by destruct (columns d !! col) as [[?|?]|].
Qed.

(** Cleaning succeeds exactly when every listed column is there and
    parses. *)
Lemma clean_cols_Return_iff cols d :
  (∃ d1, clean_cols py_float cols d = Return d1) ↔
  ∀ c, c ∈ cols → ∃ s, columns d !! c = Some s ∧ parses py_float s.
Proof.
  unfold clean_cols. revert d.
  induction cols as [|col cols IH]; intros d; cbn [fold_cols].
  { split; [intros _ c Hc; by apply not_elem_of_nil in Hc | eauto]. }
  split.
  - intros [d1 Hd1] c Hc.
    destruct (clean_col py_float col d) as [d0|] eqn:Hstep; simpl in Hd1; [|done].
    destruct (clean_col_spec _ _ _ _ Hstep) as (_ & _ & Hsame & _).
    assert (∃ s, columns d !! col = Some s ∧ parses py_float s) as Hhead.
    { unfold clean_col in Hstep.
      destruct (columns d !! col) as [[vs|ss]|]; simpl in Hstep; [| |done].
      - by exists (SFloat vs).
      - exists (SObj ss). split; [done|]. apply parses_astype_float.
        destruct (astype_float _ _); [eauto | done]. }
    destruct (decide (c = col)) as [->|Hne]; [done|].
    apply elem_of_cons in Hc as [?|Hc]; [done|].
    rewrite <-(Hsame c Hne). apply (proj1 (IH d0)); eauto.
  - intros Hall.
    destruct (Hall col) as (s & Hs & Hp); [by left|].
    rewrite clean_col_eq, Hs.
    destruct s as [vs|ss]; simpl.
    + apply IH. intros c Hc. apply Hall. by right.
    + apply parses_astype_float in Hp as [xs Hxs]. rewrite Hxs. simpl.
      apply IH. intros c Hc. unfold set_col; simpl.
      destruct (decide (c = col)) as [->|Hne].
      * rewrite lookup_insert_eq. by exists (SFloat xs).
      * rewrite lookup_insert_ne by done. apply Hall. by right.
Qed.

(** With every listed column there, the only failure of cleaning is the
    [ValueError] of a cell that is not a number. *)
Lemma clean_cols_ValueError cols d c ss s :
  (∀ c', c' ∈ cols → is_Some (columns d !! c')) →
  c ∈ cols → columns d !! c = Some (SObj ss) → s ∈ ss →
  py_float (remove_commas s) = None →
  clean_cols py_float cols d = Raise ValueError.
Proof.
  unfold clean_cols. revert d.
  induction cols as [|col cols IH]; intros d Hall Hc Hss Hs Hbad;
    cbn [fold_cols].
  { by apply not_elem_of_nil in Hc. }
  destruct (Hall col) as [s0 Hs0]; [by left|].
  rewrite clean_col_eq, Hs0.
  destruct s0 as [vs|ss0]; simpl.
  - apply IH; try done.
    + intros c' Hc'. apply Hall. by right.
    + apply elem_of_cons in Hc as [->|Hc]; [congruence | done].
  - destruct (astype_float py_float (remove_commas <$> ss0)) as [xs|e] eqn:Hxs; simpl.
    + assert (c ≠ col) as Hne.
      { intros ->. assert (ss0 = ss) as -> by congruence.
        assert (is_Some (py_float (remove_commas s))) as [x Hx].
        { apply (proj1 (astype_float_Return_iff (remove_commas <$> ss)));
            [eauto|]. apply list_elem_of_fmap. eauto. }
        congruence. }
      apply elem_of_cons in Hc as [?|Hc]; [done|].
      apply IH; try done.
      * intros c' Hc'. unfold set_col; simpl.
        destruct (decide (c' = col)) as [->|Hne'].
        -- rewrite lookup_insert_eq. eauto.
        -- rewrite lookup_insert_ne by done. apply Hall. by right.
      * unfold set_col; simpl. by rewrite lookup_insert_ne.
    + by rewrite (astype_float_Raise _ _ Hxs).
Qed.

(** X3.  When the seven price columns are all there and one of them, read
    as strings, has a cell that [float] rejects after the commas are
    removed, preparation raises [ValueError]. *)
Theorem preparation_rejects_unparsable_price df h d c ss s :
  h !! df = Some d →
  (∀ c', c' ∈ cols_to_clean → is_Some (columns d !! c')) →
  c ∈ cols_to_clean →
  columns d !! c = Some (SObj ss) →
  s ∈ ss →
  py_float (remove_commas s) = None →
  (_process_data py_float df h).1 = Raise ValueError.
Proof.
  intros Hd Hall Hc Hss Hs Hbad.
  pose proof (_process_data_prepare_gen py_float df h d Hd) as Hgen.
  unfold prepare in Hgen.
  rewrite (clean_cols_ValueError cols_to_clean d c ss s) in Hgen by done.
  exact Hgen.
Qed.

(** X4.  When a price column is missing and the price columns listed
    before it are there and parse, preparation raises [KeyError] with the
    name of the missing column. *)
Theorem preparation_reports_missing_price_column df h d pre c post :
  h !! df = Some d →
  cols_to_clean = pre ++ c :: post →
  (∀ c', c' ∈ pre → ∃ s, columns d !! c' = Some s ∧ parses py_float s) →
  columns d !! c = None →
  (_process_data py_float df h).1 = Raise (KeyError c).
Proof.
  intros Hd Hcols Hpre Hmiss.
  pose proof (_process_data_prepare_gen py_float df h d Hd) as Hgen.
  unfold prepare, clean_cols in Hgen. rewrite Hcols, fold_cols_app in Hgen.
  destruct (proj2 (clean_cols_Return_iff pre d) Hpre) as [d0 Hd0].
  unfold clean_cols in Hd0. rewrite Hd0 in Hgen. simpl in Hgen.
  assert (c ∉ pre) as Hnotin.
  { intros Hin. destruct (Hpre c Hin) as (s & Hs & _). congruence. }
  destruct (clean_cols_spec py_float pre d d0 Hd0) as (_ & _ & Hsame & _).
  cbn [fold_cols] in Hgen.
  rewrite clean_col_eq, (Hsame c Hnotin), Hmiss in Hgen.
  exact Hgen.
Qed.

End Failures.


Section Success.

Variable py_float : string → option float64.




End Success.

Lemma preparation_rejects_unparsable_price_witness :
  Cases.at_1 Cases.bad_price !! 1%positive = Some Cases.bad_price ∧
  (∀ c', c' ∈ cols_to_clean → is_Some (columns Cases.bad_price !! c')) ∧
  "High" ∈ cols_to_clean ∧
  columns Cases.bad_price !! "High" = Some (SObj ["1,010.00"; "n/a"]) ∧
  "n/a" ∈ ["1,010.00"; "n/a"] ∧
  Sample.parse_decimal (remove_commas "n/a") = None ∧
  (_process_data Sample.parse_decimal 1%positive (Cases.at_1 Cases.bad_price)).1
    = Raise ValueError.
Proof.
  assert (∀ c', c' ∈ cols_to_clean → is_Some (columns Cases.bad_price !! c')) as Hall.
  { intros c'. unfold cols_to_clean. rewrite !elem_of_cons, elem_of_nil.
    intros [->|[->|[->|[->|[->|[->|[->|[]]]]]]]]; by eexists. }
  split; [reflexivity|]. split; [exact Hall|].
  split; [compute_done|]. split; [reflexivity|].
  split; [compute_done|]. split; [reflexivity|].
  apply (preparation_rejects_unparsable_price Sample.parse_decimal 1%positive
           (Cases.at_1 Cases.bad_price) Cases.bad_price "High"
           ["1,010.00"; "n/a"] "n/a").
  - reflexivity.
  - exact Hall.
  - compute_done.
  - reflexivity.
  - compute_done.
  - reflexivity.
Defined.

Lemma preparation_reports_missing_price_column_witness :
  Cases.at_1 Cases.no_low !! 1%positive = Some Cases.no_low ∧
  cols_to_clean = ["Open"; "High"] ++ "Low" :: ["LTP"; "Turnover (crs.)"; "52w H"; "52w L"] ∧
  (∀ c', c' ∈ ["Open"; "High"] →
     ∃ s, columns Cases.no_low !! c' = Some s ∧ parses Sample.parse_decimal s) ∧
  columns Cases.no_low !! "Low" = None ∧
  (_process_data Sample.parse_decimal 1%positive (Cases.at_1 Cases.no_low)).1
    = Raise (KeyError "Low").
Proof.
  assert (∀ c', c' ∈ ["Open"; "High"] →
     ∃ s, columns Cases.no_low !! c' = Some s ∧ parses Sample.parse_decimal s) as Hpre.
  { intros c'. rewrite !elem_of_cons, elem_of_nil.
    intros [->|[->|[]]]; eexists; (split; [reflexivity|]);
      intros x; simpl; rewrite !elem_of_cons, elem_of_nil;
      intros [->|[->|[->|[->|[->|[->|[->|[]]]]]]]]; by eexists. }
  split; [reflexivity|]. split; [reflexivity|]. split; [exact Hpre|].
  split; [reflexivity|].
  apply (preparation_reports_missing_price_column Sample.parse_decimal 1%positive
           (Cases.at_1 Cases.no_low) Cases.no_low ["Open"; "High"] "Low"
           ["LTP"; "Turnover (crs.)"; "52w H"; "52w L"]).
  - reflexivity.
  - reflexivity.
  - exact Hpre.
  - reflexivity.
Defined.


(** ** More on preparation: volumes that are all zero *)

Lemma zero_plus_zero : (lit 0 + lit 0)%float = lit 0.
Proof. by vm_compute. Qed.

Lemma foldl_zeros (vols : list float64) :
  (∀ v, v ∈ vols → v = lit 0) → foldl fadd (lit 0) vols = lit 0.
Proof.
  induction vols as [|x vols IH]; intros Hzero; [done|].
  simpl. rewrite (Hzero x) by (by left). rewrite zero_plus_zero.
  apply IH. intros v Hv. apply Hzero. by right.
Qed.

Lemma block_loop_zeros (n : nat) (vols : list float64) :
  length vols ≤ n →
  (∀ v, v ∈ vols → v = lit 0) →
  block_loop (lit 0) (lit 0) (lit 0) (lit 0) (lit 0) (lit 0) (lit 0) (lit 0) vols
  = lit 0.
Proof.
  revert vols. induction n as [|n IH]; intros vols Hlen Hzero.
  { destruct vols; [|simpl in Hlen; lia]. by vm_compute. }
  destruct vols as [|a0 [|a1 [|a2 [|a3 [|a4 [|a5 [|a6 [|a7 l]]]]]]]];
    try (cbn [block_loop]; rewrite !zero_plus_zero; by apply foldl_zeros).
  cbn [block_loop].
  rewrite (Hzero a0), (Hzero a1), (Hzero a2), (Hzero a3), (Hzero a4),
    (Hzero a5), (Hzero a6), (Hzero a7) by (rewrite !elem_of_cons; tauto).
  rewrite !zero_plus_zero. apply IH; [simpl in Hlen; lia|].
  intros v Hv. apply Hzero. rewrite !elem_of_cons. tauto.
Qed.

Lemma block_sum_zeros (vols : list float64) :
  (∀ v, v ∈ vols → v = lit 0) → block_sum vols = lit 0.
Proof.
  intros Hzero.
  destruct vols as [|a0 [|a1 [|a2 [|a3 [|a4 [|a5 [|a6 [|a7 l]]]]]]]];
    try (by apply foldl_zeros).
  cbn [block_sum].
  rewrite (Hzero a0), (Hzero a1), (Hzero a2), (Hzero a3), (Hzero a4),
    (Hzero a5), (Hzero a6), (Hzero a7) by (rewrite !elem_of_cons; tauto).
  apply (block_loop_zeros (length l)); [done|].
  intros v Hv. apply Hzero. rewrite !elem_of_cons. tauto.
Qed.

Lemma pairwise_sum_zeros (fuel : nat) (vols : list float64) :
  (∀ v, v ∈ vols → v = lit 0) → pairwise_sum fuel vols = lit 0.
Proof.
  revert vols. induction fuel as [|fuel IH]; intros vols Hzero; simpl.
  { by apply block_sum_zeros. }
  destruct (_ <=? _)%nat; [by apply block_sum_zeros|].
  rewrite !IH; [apply zero_plus_zero | |].
  - intros v Hv. apply Hzero. by eapply subseteq_drop.
  - intros v Hv. apply Hzero. by eapply subseteq_take.
Qed.

Lemma fsum_zeros (vols : list float64) :
  (∀ v, v ∈ vols → v = lit 0) → fsum vols = lit 0.
Proof.
  intros Hzero. unfold fsum. rewrite (pairwise_sum_zeros _ _ Hzero).
  apply zero_plus_zero.
Qed.

Lemma values_zeros (vols : list float64) :
  (∀ v, v ∈ vols → v = lit 0) →
  (λ x, if is_nan x then lit 0 else x) <$> vols = vols.
Proof.
  intros Hzero. induction vols as [|x vols IH]; [done|].
  csimpl. rewrite IH by (intros v Hv; apply Hzero; by right).
  rewrite (Hzero x) by (by left). f_equal.
Qed.

(** Zero divided by a mean of zeros is NaN, whatever the count. *)
Lemma zero_div_zero_div (n : float64) : (lit 0 / (lit 0 / n))%float = NaN.
Proof. eval_lits. by destruct n as [[]|[]| |[]]. Qed.

Lemma score_with_NaN_ratio (x y : float64) :
  (x + y + lit 0.2 * (NaN - lit 1))%float = NaN.
Proof.
  change (NaN - lit 1)%float with NaN.
  by rewrite fmul_NaN_r, fadd_NaN_r.
Qed.

(** X8.  When no stock has traded (every volume is 0), the mean volume is
    0, every volume ratio is NaN, and so is every score: each decision of
    a model built on such data is a HOLD with no profit, whatever the two
    changes are. *)
Theorem zero_volumes_make_every_decision_a_hold
    py stock_df cap h0 d self h vols symbol m log h' :
  h0 !! stock_df = Some d →
  __init__ py stock_df cap h0 = (Return self, h) →
  columns d !! "Volume (lacs)" = Some (SFloat vols) →
  (∀ v, v ∈ vols → v = lit 0) →
  run_policy_and_backtest self symbol h = (Return (Some m, log), h') →
  DRL_Score m = NaN ∧
  Final_Signal m = HOLD ∧
  Simulated_Profit m = lit 0 ∧
  Final_Capital m = cap ∧
  Sharpe_Ratio m = lit 0.
Proof.
  intros Hd Hinit Hvols Hzero Hrun.
  destruct (__init___inv _ _ _ _ _ _ _ Hd Hinit) as [-> (d' & Hprep & ->)].
  apply run_policy_and_backtest_inv in Hrun
    as (_ & syms & i & ltp & c365 & c30 & vr & lines & _ & _ & H365 & H30 &
        Hvr & _ & Hsig & _ & _ & _ & _ & Hscore & _ & Hsharpe & _ & Hcase).
  simpl in *. rewrite lookup_total_insert_eq in *.
  destruct (prepare_volume_ratio _ _ _ _ _ Hprep Hvr)
    as (vols' & mu & v & Hvols' & Hmu & Hv & ->).
  rewrite Hvols in Hvols'. injection Hvols' as <-.
  assert (v ∈ vols) as Hin.
  { unfold num in Hv. rewrite row_at_lookup, Hvols in Hv. simpl in Hv.
    destruct (vols !! i) as [x|] eqn:Hx; simpl in Hv; [|done].
    injection Hv as <-. by eapply list_elem_of_lookup_2. }
  unfold mean in Hmu. rewrite (values_zeros _ Hzero), (fsum_zeros _ Hzero) in Hmu.
  injection Hmu as <-.
  rewrite (Hzero v Hin) in *. rewrite zero_div_zero_div in *.
  rewrite score_with_NaN_ratio in Hscore.
  pose proof (_generate_signal_spec _ _ _ _ _ H365 H30 Hvr Hsig) as Hs.
  cbv zeta in Hs. rewrite score_with_NaN_ratio in Hs.
  change (Final_Signal m = HOLD) in Hs.
  rewrite Hs in Hcase. destruct Hcase as (Hp & Hf & Hr & _).
  rewrite Hsharpe, Hr. done.
Qed.

Lemma zero_volumes_make_every_decision_a_hold_witness :
  let h0 := Cases.at_1 Cases.no_volume in
  let self := Cases.model_1 (lit 1000000) in
  let h := (__init__ Sample.parse_decimal 1%positive (lit 1000000) h0).2 in
  ∃ m log,
    h0 !! 1%positive = Some Cases.no_volume ∧
    __init__ Sample.parse_decimal 1%positive (lit 1000000) h0 = (Return self, h) ∧
    columns Cases.no_volume !! "Volume (lacs)" = Some (SFloat [lit 0; lit 0; lit 0]) ∧
    (∀ v, v ∈ [lit 0; lit 0; lit 0] → v = lit 0) ∧
    run_policy_and_backtest self "A" h = (Return (Some m, log), h) ∧
    Chng365d m = lit 90 ∧ Chng30d m = lit 50 ∧
    DRL_Score m = NaN ∧
    Final_Signal m = HOLD ∧
    Simulated_Profit m = lit 0 ∧
    Final_Capital m = lit 1000000 ∧
    Sharpe_Ratio m = lit 0.
Proof.
  intros h0 self h.
  assert (∀ v, v ∈ [lit 0; lit 0; lit 0] → v = lit 0) as Hzero.
  { intros v. rewrite !elem_of_cons, elem_of_nil. by intros [->|[->|[->|[]]]]. }
  assert (__init__ Sample.parse_decimal 1%positive (lit 1000000) h0
          = (Return self, h)) as Hinit by (vm_compute; reflexivity).
  eexists _, _.
  split; [reflexivity|].
  split; [exact Hinit|].
  split; [reflexivity|].
  split; [exact Hzero|].
  split; [vm_compute; reflexivity|].
  split; [float_eq|]. split; [float_eq|].
  eapply (zero_volumes_make_every_decision_a_hold Sample.parse_decimal 1%positive
            (lit 1000000) h0 Cases.no_volume self h [lit 0; lit 0; lit 0] "A").
  - reflexivity.
  - exact Hinit.
  - reflexivity.
  - exact Hzero.
  - vm_compute; reflexivity.
Defined.

(** ** Well-formed frames *)

Lemma well_formed_set_col col s d :
  well_formed d → size s = index d → well_formed (set_col col s d).
Proof.
  intros Hwf Hs c s'. unfold set_col; simpl.
  destruct (decide (col = c)) as [->|Hne].
  - rewrite lookup_insert_eq. by intros [= <-].
  - rewrite lookup_insert_ne by done. apply Hwf.
Qed.

Lemma index_of_Some symbol l :
  symbol ∈ l → ∃ i, index_of symbol l = Some i ∧ l !! i = Some symbol.
Proof.
  induction l as [|x l IH]; [by intros ?%not_elem_of_nil|].
  intros Hin. simpl. destruct (decide (x = symbol)) as [->|Hne].
  - by exists 0.
  - apply elem_of_cons in Hin as [?|Hin]; [done|].
    destruct (IH Hin) as (i & -> & Hi). by exists (S i).
Qed.

Lemma index_of_lookup symbol l i :
  index_of symbol l = Some i → l !! i = Some symbol.
Proof.
  revert i. induction l as [|x l IH]; intros i; simpl; [done|].
  destruct (decide (x = symbol)) as [->|Hne].
  - by intros [= <-].
  - destruct (index_of symbol l) as [j|]; simpl; [|done].
    intros [= <-]. by apply IH.
Qed.

Section WellFormed.

Variable py_float : string → option float64.

Lemma clean_cols_well_formed cols d d1 :
  well_formed d → clean_cols py_float cols d = Return d1 → well_formed d1.
Proof.
  unfold clean_cols. revert d.
  induction cols as [|col cols IH]; intros d Hwf; cbn [fold_cols].
  { by intros [= <-]. }
  destruct (clean_col py_float col d) as [d0|] eqn:Hstep; simpl; [|done].
  apply IH. unfold clean_col in Hstep.
  destruct (columns d !! col) as [[vs|ss]|] eqn:Hcol; simpl in Hstep; [| |done].
  - by injection Hstep as <-.
  - destruct (astype_float _ _) as [xs|] eqn:Hxs; simpl in Hstep; [|done].
    injection Hstep as <-. apply well_formed_set_col; [done|]. simpl.
    unfold astype_float in Hxs.
    rewrite (mapM_res_length _ _ _ Hxs), length_fmap. apply (Hwf col (SObj ss) Hcol).
Qed.

Lemma div_scalar_size v x r : div_scalar v x = Return r → size r = size v.
Proof.
  destruct v as [l|[|??]]; simpl; intros [= <-]; simpl; [|done].
  by rewrite length_fmap.
Qed.

Lemma prepare_well_formed d d' :
  well_formed d → prepare py_float d = Return d' → well_formed d'.
Proof.
  intros Hwf Hprep.
  destruct (prepare_spec _ _ _ Hprep) as (d1 & ms & v & mu & r & Hclean & Hms & Hv & _ & Hr & ->).
  pose proof (clean_cols_well_formed _ _ _ Hwf Hclean) as Hwf1.
  destruct (clean_cols_spec _ _ _ _ Hclean) as (Hidx & _).
  apply well_formed_set_col; [apply well_formed_set_col; [done|] |]; simpl.
  - rewrite (mapM_res_length _ _ _ Hms), rows_length. done.
  - rewrite (div_scalar_size _ _ _ Hr), Hidx. by apply (Hwf "Volume (lacs)").
Qed.

(** X9.  Preparation keeps a frame well formed: when every column of the
    input has one entry per row, so has every column of the prepared
    frame, the two derived columns included. *)
Theorem preparation_keeps_frames_well_formed df h d l h' :
  h !! df = Some d →
  well_formed d →
  _process_data py_float df h = (Return l, h') →
  ∃ d' ms r,
    h' !! df = Some d' ∧
    well_formed d' ∧
    columns d' !! "Momentum_Score" = Some (SFloat ms) ∧ length ms = index d ∧
    columns d' !! "Volume_Ratio" = Some r ∧ size r = index d.
Proof.
  intros Hd Hwf Hproc.
  apply (_process_data_prepare py_float df h d l h' Hd) in Hproc as [-> (d' & Hprep & ->)].
  pose proof (prepare_well_formed _ _ Hwf Hprep) as Hwf'.
  pose proof (prepare_index _ _ _ Hprep) as Hidx.
  destruct (prepare_spec _ _ _ Hprep) as (d1 & ms & v & mu & r & _ & _ & _ & _ & _ & Hd').
  assert (columns d' !! "Momentum_Score" = Some (SFloat ms)) as Hms.
  { rewrite Hd'. simpl. rewrite lookup_insert_ne by done. apply lookup_insert_eq. }
  assert (columns d' !! "Volume_Ratio" = Some r) as Hr.
  { rewrite Hd'. simpl. apply lookup_insert_eq. }
  exists d', ms, r. rewrite lookup_insert_eq.
  repeat split; try done.
  - rewrite <-Hidx. apply (Hwf' _ _ Hms).
  - rewrite <-Hidx. apply (Hwf' _ _ Hr).
Qed.

End WellFormed.

Lemma Sample_snapshot_well_formed : well_formed Sample.snapshot.
Proof.
  assert (map_Forall (λ _ s, size s = 7) (columns Sample.snapshot)) as Hall
    by (apply (bool_decide_unpack _); vm_compute; exact I).
  intros c s Hc. exact (Hall c s Hc).
Qed.

Lemma preparation_keeps_frames_well_formed_witness :
  ∃ h' d' ms r,
    Sample.uploaded !! Sample.data = Some Sample.snapshot ∧
    well_formed Sample.snapshot ∧
    _process_data Sample.parse_decimal Sample.data Sample.uploaded
      = (Return Sample.data, h') ∧
    h' !! Sample.data = Some d' ∧
    well_formed d' ∧
    columns d' !! "Momentum_Score" = Some (SFloat ms) ∧ length ms = index Sample.snapshot ∧
    columns d' !! "Volume_Ratio" = Some r ∧ size r = index Sample.snapshot.
Proof.
  edestruct (preparation_keeps_frames_well_formed Sample.parse_decimal Sample.data
               Sample.uploaded Sample.snapshot)
    as (d' & ms & r & H1 & H2 & H3 & H4 & H5 & H6).
  - reflexivity.
  - exact Sample_snapshot_well_formed.
  - vm_compute; reflexivity.
  - eexists _, d', ms, r.
    split; [reflexivity|]. split; [exact Sample_snapshot_well_formed|].
    split; [vm_compute; reflexivity|]. split; [exact H1|].
    by repeat split.
Defined.

(** ** Decisions on listed symbols *)



Section Listed.

Variable py_float : string → option float64.


End Listed.


(** ** More on the simulated trade *)

Section Trade.

(** Signs under the arithmetic of the BUY path. *)
Lemma fmul_signed s t x y :
  signed s x → signed t y → signed (xorb s t) (x * y)%float.
Proof.
  intros [->|[->|[->|(m & e & ->)]]] [->|[->|[->|(m' & e' & ->)]]];
    unfold fmul, signed; simpl; eauto 10.
  apply binary_round_aux_signed.
Qed.

Lemma fdiv_signed s t x y :
  signed s x → signed t y → signed (xorb s t) (x / y)%float.
Proof.
  intros [->|[->|[->|(m & e & ->)]]] [->|[->|[->|(m' & e' & ->)]]];
    unfold fdiv, signed; simpl; eauto 10.
  destruct (SFdiv_core_binary _ _ _ _ _ _) as [[mz ez] lz].
  apply binary_round_aux_signed.
Qed.

Lemma of_Z_signed n : (0 ≤ n)%Z → signed false (of_Z n).
Proof.
  intros Hn. destruct n as [|p|p]; [by left| |lia].
  unfold of_Z, binary_normalize, binary_round.
  destruct (shl_align _ _ _) as [mz ez]. apply binary_round_aux_signed.
Qed.

Lemma int_signed x n : signed false x → int x = Return n → (0 ≤ n)%Z.
Proof.
  intros [->|[->|[->|(m & e & ->)]]]; simpl; intros [= <-]; [done|].
  destruct e as [|p|p].
  - done.
  - apply Z.shiftl_nonneg. lia.
  - apply Z.shiftr_nonneg. lia.
Qed.

Lemma positive_finite x :
  (x >? lit 0)%float = true → is_finite x = true → ∃ m e, x = S754_finite false m e.
Proof. destruct x as [[]|[]| |[] m e]; try done. eauto. Qed.

Lemma negative_finite x :
  (x <? lit 0)%float = true → is_finite x = true → ∃ m e, x = S754_finite true m e.
Proof. destruct x as [[]|[]| |[] m e]; try done. eauto. Qed.

Lemma signed_true_not_above x : signed true x → (x >? lit 0)%float = false.
Proof. by intros [->|[->|[->|(m & e & ->)]]]. Qed.

Lemma signed_false_not_below x : signed false x → (x <? lit 0)%float = false.
Proof. by intros [->|[->|[->|(m & e & ->)]]]. Qed.

(** X11.  On the BUY path a price of 0, of either sign, never gives a
    result: the allocation [initialCapital*0.2] is divided by 0, the
    quotient is infinite or NaN, and [int] raises.  It raises [ValueError]
    when the rounded allocation is itself 0 or NaN and [OverflowError] in
    every other case; the heap is unchanged. *)
Theorem buy_at_price_zero_raises self symbol h syms i c365 c30 vr ltp :
  columns (h !!! df self) !! "Symbol" = Some (SObj syms) →
  index_of symbol syms = Some i →
  num (row_at (h !!! df self) i) "365 d % chng" = Return c365 →
  num (row_at (h !!! df self) i) "30 d % chng" = Return c30 →
  num (row_at (h !!! df self) i) "Volume_Ratio" = Return vr →
  item (row_at (h !!! df self) i) "LTP" = Return (CNum ltp) →
  is_zero ltp = true →
  (lit 0.5 * c365 / lit 100 + lit 0.3 * c30 / lit 100 + lit 0.2 * (vr - lit 1)
     >? lit 0.15)%float = true →
  let allocation := (initial_capital self * lit 0.2)%float in
  run_policy_and_backtest self symbol h
  = (Raise (if is_zero allocation || is_nan allocation
            then ValueError else OverflowError), h).
Proof.
  intros Hsym Hi H365 H30 Hvr Hltp Hzero Hbuy allocation.
  assert (symbol ∈ syms) as Hin.
  { apply index_of_lookup in Hi. by eapply list_elem_of_lookup_2. }
  assert (int (allocation / ltp)%float
          = Raise (if is_zero allocation || is_nan allocation
                   then ValueError else OverflowError)) as Hint.
  { by destruct allocation, ltp. }
  unfold run_policy_and_backtest, mbind, M_bind, mret, M_ret, getitem, deref, lift.
  rewrite Hsym. simpl. rewrite (bool_decide_eq_true_2 _ Hin). simpl.
  rewrite Hsym. simpl. rewrite Hi. simpl.
  unfold _generate_signal. rewrite H365, H30, Hvr, Hltp.
  cbn [mbind res_bind mret res_ret]. cbv zeta.
  rewrite Hbuy. cbn [mbind res_bind mret res_ret].
  fold allocation. by rewrite Hint.
Qed.

(** X13.  On a BUY with a positive capital and a positive price, both
    finite, and a finite 30-day change, the simulated profit never has the
    sign opposite to that of the change.  A negative change gives a
    profit that is not above 0, and the reported Sharpe ratio is 0; a
    positive change gives a profit that is not below 0. *)
Theorem buy_profit_has_the_sign_of_the_change self symbol h m log h' ltp :
  run_policy_and_backtest self symbol h = (Return (Some m, log), h') →
  Final_Signal m = BUY →
  (initial_capital self >? lit 0)%float = true →
  is_finite (initial_capital self) = true →
  LTP m = CNum ltp →
  (ltp >? lit 0)%float = true → is_finite ltp = true →
  is_finite (Chng30d m) = true →
  ((Chng30d m <? lit 0)%float = true →
   (Simulated_Profit m >? lit 0)%float = false ∧ Sharpe_Ratio m = lit 0) ∧
  ((Chng30d m >? lit 0)%float = true →
   (Simulated_Profit m <? lit 0)%float = false).
Proof.
  intros (_ & syms & i & ltp' & c365 & c30 & vr & lines & _ & _ & _ & _ & _ & _ &
          _ & _ & Hltp & H30 & _ & _ & _ & Hsharpe & -> & Hcase)%run_policy_and_backtest_inv
         Hbuy Hcpos Hcfin Hp Hppos Hpfin H30fin.
  rewrite Hbuy in Hcase.
  destruct Hcase as (p & n & -> & Hint & Hprofit & Hfinal & Hret & _).
  rewrite Hltp in Hp. injection Hp as ->. subst c30.
  destruct (positive_finite _ Hcpos Hcfin) as (mc & ec & Hcap).
  destruct (positive_finite _ Hppos Hpfin) as (mp & ep & ->).
  assert (signed false (initial_capital self)) as Hscap
    by (rewrite Hcap; right; right; right; eauto).
  assert (signed false (S754_finite false mp ep)) as Hsp
    by (right; right; right; eauto).
  assert (signed false (lit 0.2)) as Hs02
    by (right; right; right; eexists _, _; vm_compute; reflexivity).
  assert (signed false (lit 100)) as Hs100
    by (right; right; right; eexists _, _; vm_compute; reflexivity).
  pose proof (int_signed _ _
                (fdiv_signed _ _ _ _ (fmul_signed _ _ _ _ Hscap Hs02) Hsp) Hint)
    as Hn.
  pose proof (fmul_signed _ _ _ _ (of_Z_signed n Hn) Hsp) as Hinv.
  split.
  - intros Hneg. destruct (negative_finite _ Hneg H30fin) as (m3 & e3 & H3).
    assert (signed true (Simulated_Profit m)) as Hsprofit.
    { rewrite Hprofit. apply (fmul_signed false true); [done|].
      apply (fdiv_signed true false); [|done].
      rewrite H3. right; right; right; eauto. }
    split; [by apply signed_true_not_above|].
    rewrite Hsharpe, Hret.
    by rewrite (signed_true_not_above _ (fdiv_signed true false _ _ Hsprofit Hscap)).
  - intros Hpos. destruct (positive_finite _ Hpos H30fin) as (m3 & e3 & H3).
    apply signed_false_not_below. rewrite Hprofit.
    apply (fmul_signed false false); [done|].
    apply (fdiv_signed false false); [|done].
    rewrite H3. right; right; right; eauto.
Qed.

End Trade.

(** ** More on the signal and on the log *)

Section SignalAndLog.

Lemma below_threshold_negative (x : float64) :
  (x <? lit (-0.15))%float = true → (x <? lit 0)%float = true.
Proof. eval_lits. by destruct x as [[]|[]| |[] m e]. Qed.

(** A quotient by 100 that is below 0 comes from a number below 0. *)
Lemma fdiv_100_negative (x : float64) :
  (x / lit 100 <? lit 0)%float = true → (x <? lit 0)%float = true.
Proof.
  destruct x as [[]|[]| |[] m e]; try done.
  assert (signed false (S754_finite false m e / lit 100)%float) as Hs.
  { apply (fdiv_signed false false); right; right; right;
      eexists _, _; [reflexivity | vm_compute; reflexivity]. }
  by rewrite (signed_false_not_below _ Hs).
Qed.

(** The lines of the log, by signal. *)
Lemma run_policy_and_backtest_lines self symbol h m log h' :
  run_policy_and_backtest self symbol h = (Return (Some m, log), h') →
  match Final_Signal m with
  | BUY =>
      ∃ shares_to_buy investment,
        log = Lines [Triggered BUY (DRL_Score m);
                     Purchased shares_to_buy investment;
                     Profit (Simulated_Profit m)]
  | SELL =>
      log = Lines [
        Triggered SELL (DRL_Score m);
        Text (if (Chng30d m / lit 100 <? lit 0)%float
              then "Decision: HOLD CASH. **Risk Managed: Avoided a potential loss**."
              else "Decision: HOLD CASH (Neutral Stance).")]
  | HOLD =>
      log = Lines [Triggered HOLD (DRL_Score m);
                   Text "Decision: HOLD CASH (Waiting for clearer trend)."]
  end.
Proof.
  unfold run_policy_and_backtest, mbind, M_bind, mret, M_ret, getitem, deref, lift.
  destruct (columns (h !!! df self) !! "Symbol") as [[vs|syms]|] eqn:Hsym; simpl; try done.
  destruct (bool_decide (symbol ∈ syms)); simpl; [|done].
  rewrite Hsym; simpl.
  destruct (index_of symbol syms) as [i|] eqn:Hi; simpl; [|done].
  destruct (_generate_signal _) as [sg|] eqn:Hsg; [|done].
  destruct (num _ "365 d % chng") as [c365|] eqn:H365; [|done].
  destruct (num _ "30 d % chng") as [c30|] eqn:H30; [|done].
  destruct (num _ "Volume_Ratio") as [vr|] eqn:Hvr; [|done].
  destruct (item _ "LTP") as [ltp|] eqn:Hltp; [|done].
  pose proof (_generate_signal_spec _ _ _ _ _ H365 H30 Hvr Hsg) as Hs.
  cbv zeta in Hs. cbn [mbind res_bind mret res_ret].
  destruct sg.
  - destruct ltp as [p|]; [|done]. cbn [mbind res_bind mret res_ret].
    destruct (int _); [|done].
    intros [= <- <- <-]. simpl. eauto.
  - set (score := (lit 0.5 * c365 / lit 100 + lit 0.3 * c30 / lit 100
                   + lit 0.2 * (vr - lit 1))%float) in *.
    assert ((score <? lit 0)%float = true) as Hneg.
    { apply below_threshold_negative.
      destruct (score >? lit 0.15)%float; [done|].
      by destruct (score <? lit (-0.15))%float. }
    rewrite Hneg, andb_true_r.
    destruct (c30 / lit 100 <? lit 0)%float eqn:Hc; intros [= <- <- <-];
      cbn [Final_Signal Chng30d DRL_Score]; by rewrite Hc.
  - intros [= <- <- <-]. done.
Qed.

(** X15.  The second log line of a SELL depends on the 30-day return
    alone: it reports an avoided loss exactly when [change30d/100], as
    binary64 computes it, is below 0, the test on the score that goes with
    it being always true on a SELL.  The line is never reported for a
    change that is not itself below 0. *)
Theorem sell_log_depends_on_the_return_alone self symbol h m log h' :
  run_policy_and_backtest self symbol h = (Return (Some m, log), h') →
  Final_Signal m = SELL →
  log = Lines [
    Triggered SELL (DRL_Score m);
    Text (if (Chng30d m / lit 100 <? lit 0)%float
          then "Decision: HOLD CASH. **Risk Managed: Avoided a potential loss**."
          else "Decision: HOLD CASH (Neutral Stance).")] ∧
  ((Chng30d m / lit 100 <? lit 0)%float = true → (Chng30d m <? lit 0)%float = true).
Proof.
  intros Hrun%run_policy_and_backtest_lines Hsell. rewrite Hsell in Hrun.
  split; [done|]. apply fdiv_100_negative.
Qed.

(** X16.  A decision only reads.  Whatever [run_policy_and_backtest]
    returns or raises, the heap after the call is the heap before it, so a
    decision made after another one is the decision that would have been
    made alone. *)
Theorem decisions_are_read_only self symbol h :
  (run_policy_and_backtest self symbol h).2 = h ∧
  ∀ other,
    (run_policy_and_backtest self symbol ≫= λ _, run_policy_and_backtest self other) h
    = match (run_policy_and_backtest self symbol h).1 with
      | Return _ => run_policy_and_backtest self other h
      | Raise e => (Raise e, h)
      end.
Proof.
  pose proof (run_policy_and_backtest_heap self symbol h) as Hheap.
  split; [done|]. intros other. unfold mbind at 1, M_bind at 1.
  destruct (run_policy_and_backtest self symbol h) as [[r|e] h1]; simpl in *;
    by subst h1.
Qed.

End SignalAndLog.

(** ** app.py: the colour of the score *)

Section ScoreColor.

Lemma above_015_above_01 (x : float64) :
  (x >? lit 0.15)%float = true → (x >? lit 0.1)%float = true.
Proof.
  eval_lits. destruct x as [[]|[]| |[] m e]; try done.
  unfold fgtb, fltb, SFltb, SFcompare.
  destruct (Z.compare_spec (-55) e) as [He|He|He],
           (Z.compare_spec (-56) e) as [He'|He'|He']; try done; lia.
Qed.

Lemma below_015_below_01 (x : float64) :
  (x <? lit (-0.15))%float = true → (x <? lit (-0.1))%float = true.
Proof.
  eval_lits. destruct x as [[]|[]| |[] m e]; try done.
  unfold fltb, SFltb, SFcompare.
  destruct (Z.compare_spec e (-55)) as [He|He|He],
           (Z.compare_spec e (-56)) as [He'|He'|He']; try done; lia.
Qed.

Lemma below_01_not_above_01 (x : float64) :
  (x <? lit (-0.1))%float = true → (x >? lit 0.1)%float = false.
Proof. eval_lits. by destruct x as [[]|[]| |[] m e]. Qed.

(** X18.  The colour that [main] gives to the score follows the signal:
    the score of a BUY is shown [inverse], the score of a SELL [normal],
    and a score shown [off] belongs to a HOLD.  (A HOLD can have any of
    the three colours, since the display cuts at 0.1 and the policy at
    0.15.) *)
Theorem score_color_follows_the_signal self symbol h m log h' :
  run_policy_and_backtest self symbol h = (Return (Some m, log), h') →
  (Final_Signal m = BUY → App.score_color m = App.inverse) ∧
  (Final_Signal m = SELL → App.score_color m = App.normal) ∧
  (App.score_color m = App.off → Final_Signal m = HOLD).
Proof.
  intros (_ & syms & i & ltp & c365 & c30 & vr & lines & _ & _ & H365 & H30 &
          Hvr & _ & Hsig & _ & _ & _ & _ & Hscore & _)%run_policy_and_backtest_inv.
  pose proof (_generate_signal_spec _ _ _ _ _ H365 H30 Hvr Hsig) as Hs.
  cbv zeta in Hs. rewrite <-Hscore in Hs. unfold App.score_color.
  destruct (DRL_Score m >? lit 0.15)%float eqn:Hhi.
  { rewrite (above_015_above_01 _ Hhi), Hs. done. }
  destruct (DRL_Score m <? lit (-0.15))%float eqn:Hlo.
  { pose proof (below_015_below_01 _ Hlo) as Hlo'.
    rewrite (below_01_not_above_01 _ Hlo'), Hlo', Hs. done. }
  rewrite Hs. done.
Qed.

End ScoreColor.

Lemma score_color_follows_the_signal_witness :
  ∃ m log,
    run_policy_and_backtest Sample.model "TCS" Sample.prepared
      = (Return (Some m, log), Sample.prepared) ∧
    Final_Signal m = SELL ∧ App.score_color m = App.normal ∧
    (Final_Signal m = BUY → App.score_color m = App.inverse) ∧
    (Final_Signal m = SELL → App.score_color m = App.normal) ∧
    (App.score_color m = App.off → Final_Signal m = HOLD).
Proof.
  eexists _, _.
  split; [vm_compute; reflexivity|].
  split; [reflexivity|]. split; [by vm_compute|].
  eapply (score_color_follows_the_signal Sample.model "TCS" Sample.prepared).
  vm_compute; reflexivity.
Defined.

(** A HOLD whose score is shown [inverse]: 0.12 is above 0.1 and not above
    0.15. *)
Example hold_shown_inverse :
  let h := Cases.at_1 (Cases.one_row (lit 100) (lit 0) (lit 24) (lit 1)) in
  ∃ m log,
    run_policy_and_backtest (Cases.model_1 (lit 1000)) "ACME" h
      = (Return (Some m, log), h) ∧
    (DRL_Score m >? lit 0.1)%float = true ∧ Final_Signal m = HOLD ∧
    App.score_color m = App.inverse.
Proof.
  intros h. eexists _, _. split; [vm_compute; reflexivity|].
  split; [float_eq|]. split; [reflexivity|]. by vm_compute.
Qed.

(** ** app.py: the symbols offered and the default *)

Lemma available_symbols_elem symbols s :
  s ∈ App.available_symbols symbols ↔ s ∈ symbols.
Proof.
  unfold App.available_symbols.
  rewrite (merge_sort_Permutation App.str_le). apply elem_of_remove_dups.
Qed.

Lemma run_policy_and_backtest_not_found_iff self symbol h d syms :
  h !! df self = Some d →
  columns d !! "Symbol" = Some (SObj syms) →
  (run_policy_and_backtest self symbol h).1
    = Return (None, Message "Stock symbol not found in data.")
  ↔ symbol ∉ syms.
Proof.
  intros Hd Hsyms.
  unfold run_policy_and_backtest, mbind, M_bind, mret, M_ret, getitem, deref, lift.
  rewrite (lookup_total_correct _ _ _ Hd), Hsyms. simpl.
  case_bool_decide as Hin; simpl.
  - split; [|done].
    repeat (case_match; simplify_eq/=; try done).
  - done.
Qed.

(** X19.  The select box offers exactly the symbols that a decision finds:
    a symbol is among [available_symbols] if and only if
    [run_policy_and_backtest] does not answer "Stock symbol not found in
    data." for it.  The list offered is sorted and has no duplicate, and
    its default entry, when there is one, is RELIANCE if the data has it. *)
Theorem offered_symbols_are_the_symbols_found self symbol h d syms :
  h !! df self = Some d →
  columns d !! "Symbol" = Some (SObj syms) →
  let available := App.available_symbols syms in
  (symbol ∈ available ↔
   (run_policy_and_backtest self symbol h).1
     ≠ Return (None, Message "Stock symbol not found in data.")) ∧
  NoDup available ∧
  Sorted App.str_le available ∧
  (syms ≠ [] → is_Some (available !! App.default_index available)) ∧
  ("RELIANCE" ∈ syms →
   available !! App.default_index available = Some "RELIANCE").
Proof.
  intros Hd Hsyms available.
  split; [|split; [|split; [|split]]].
  - rewrite (run_policy_and_backtest_not_found_iff self symbol h d syms Hd Hsyms).
    unfold available. rewrite available_symbols_elem.
    split; [tauto|]. intros Hnn. by destruct (decide (symbol ∈ syms)).
  - unfold available, App.available_symbols.
    rewrite (merge_sort_Permutation App.str_le). apply NoDup_remove_dups.
  - apply (Sorted_merge_sort App.str_le).
  - intros Hne. unfold App.default_index. case_bool_decide as Hr.
    + destruct (index_of_Some _ _ Hr) as (i & -> & Hi). simpl. eauto.
    + apply lookup_lt_is_Some_2.
      destruct available as [|x l] eqn:Hav; [|simpl; lia].
      destruct syms as [|s0 syms]; [done|].
      assert (s0 ∈ available) as Hin
        by (apply available_symbols_elem; by left).
      rewrite Hav in Hin. by apply not_elem_of_nil in Hin.
  - intros Hr. apply available_symbols_elem in Hr. fold available in Hr.
    unfold App.default_index. rewrite bool_decide_eq_true_2 by done.
    destruct (index_of_Some _ _ Hr) as (i & -> & Hi). done.
Qed.

Lemma offered_symbols_are_the_symbols_found_witness :
  ∃ d,
    Sample.prepared !! df Sample.model = Some d ∧
    columns d !! "Symbol"
      = Some (SObj ["RELIANCE"; "TCS"; "INFY"; "EDGE"; "EDGEN"; "MRF"; "FLAT"]) ∧
    App.available_symbols ["RELIANCE"; "TCS"; "INFY"; "EDGE"; "EDGEN"; "MRF"; "FLAT"]
      = ["EDGE"; "EDGEN"; "FLAT"; "INFY"; "MRF"; "RELIANCE"; "TCS"] ∧
    App.default_index ["EDGE"; "EDGEN"; "FLAT"; "INFY"; "MRF"; "RELIANCE"; "TCS"] = 5 ∧
    let available :=
      App.available_symbols
        ["RELIANCE"; "TCS"; "INFY"; "EDGE"; "EDGEN"; "MRF"; "FLAT"] in
    ("WIPRO" ∈ available ↔
     (run_policy_and_backtest Sample.model "WIPRO" Sample.prepared).1
       ≠ Return (None, Message "Stock symbol not found in data.")) ∧
    NoDup available ∧
    Sorted App.str_le available ∧
    (["RELIANCE"; "TCS"; "INFY"; "EDGE"; "EDGEN"; "MRF"; "FLAT"] ≠ [] →
     is_Some (available !! App.default_index available)) ∧
    ("RELIANCE" ∈ ["RELIANCE"; "TCS"; "INFY"; "EDGE"; "EDGEN"; "MRF"; "FLAT"] →
     available !! App.default_index available = Some "RELIANCE").
Proof.
  eexists.
  split; [vm_compute; reflexivity|].
  split; [vm_compute; reflexivity|].
  split; [by vm_compute|]. split; [by vm_compute|].
  eapply (offered_symbols_are_the_symbols_found Sample.model "WIPRO" Sample.prepared).
  - vm_compute; reflexivity.
  - vm_compute; reflexivity.
Defined.

(** ** app.py: the boxes of the log *)

Lemma isin_skip_numeric (c0 : ascii) (p' s rest : string) :
  numeric_char c0 = false →
  numeric_text s →
  App.isin (String c0 p') (s +:+ rest) = App.isin (String c0 p') rest.
Proof.
  intros Hc0. unfold numeric_text.
  induction s as [|c s IH]; intros Hs; [done|].
  simpl in Hs. apply Forall_cons in Hs as [Hc Hs].
  change (String c s +:+ rest) with (String c (s +:+ rest)).
  cbn [App.isin App.startswith].
  destruct (Ascii.eqb_spec c0 c) as [->|_]; [congruence|].
  simpl. by apply IH.
Qed.

Lemma append_cons (c : ascii) (s t : string) :
  String c s +:+ t = String c (s +:+ t).
Proof. reflexivity. Qed.

Lemma append_nil (t : string) : "" +:+ t = t.
Proof. reflexivity. Qed.

Section Boxes.

Variable fmt_4f : float64 → string.
Variable fmt_2f : float64 → string.
Variable str_int : Z → string.
Hypothesis fmt_4f_numeric : ∀ x, numeric_text (fmt_4f x).
Hypothesis fmt_2f_numeric : ∀ x, numeric_text (fmt_2f x).
Hypothesis str_int_numeric : ∀ n, numeric_text (str_int n).

Local Abbreviation shown := (λ line, App.log_box (render fmt_4f fmt_2f str_int line)).

Local Ltac isin_compute :=
  unfold App.log_box, render, signal_name;
  rewrite ?append_cons, ?append_nil;
  repeat (cbn [App.isin App.startswith Ascii.eqb Bool.eqb andb orb];
          rewrite ?isin_skip_numeric by (done || apply fmt_4f_numeric
                                         || apply fmt_2f_numeric
                                         || apply str_int_numeric));
  try reflexivity.

Lemma box_Triggered s x :
  shown (Triggered s x)
  = match s with BUY => App.success | SELL => App.error | HOLD => App.info end.
Proof using Type*. destruct s; isin_compute. Qed.

Lemma box_Purchased n x : shown (Purchased n x) = App.info.
Proof using Type*. isin_compute. Qed.

Lemma box_Profit x : shown (Profit x) = App.success.
Proof using Type*. isin_compute. Qed.

(** X20.  The boxes in which [main] shows the log of a decision, for
    number formats that print numeric text.  A BUY is shown as success,
    info, success: the line of the shares purchased matches none of the
    patterns, since the pattern for it expects asterisks that the line
    does not have.  A SELL is shown as error followed by error when the
    30-day return [change30d/100] is below 0 and by info otherwise; a
    HOLD as two infos. *)
Theorem log_boxes_by_signal self symbol h m lines h' :
  run_policy_and_backtest self symbol h = (Return (Some m, Lines lines), h') →
  shown <$> lines
  = match Final_Signal m with
    | BUY => [App.success; App.info; App.success]
    | SELL => [App.error;
               if (Chng30d m / lit 100 <? lit 0)%float
               then App.error else App.info]
    | HOLD => [App.info; App.info]
    end.
Proof using Type*.
  intros Hrun%run_policy_and_backtest_lines.
  destruct (Final_Signal m).
  - destruct Hrun as (n & x & [= ->]). cbn [fmap list_fmap].
    by rewrite box_Triggered, box_Purchased, box_Profit.
  - injection Hrun as ->. cbn [fmap list_fmap]. rewrite box_Triggered.
    by destruct (Chng30d m / lit 100 <? lit 0)%float.
  - injection Hrun as ->. cbn [fmap list_fmap]. by rewrite box_Triggered.
Qed.

End Boxes.

Lemma Cases_fmt_numeric x : numeric_text (Cases.fmt x).
Proof. destruct x as [[]|[]| |[] m e]; by repeat constructor. Qed.

Lemma Cases_str_Z_numeric n : numeric_text (Cases.str_Z n).
Proof. destruct n; by repeat constructor. Qed.

Lemma log_boxes_by_signal_witness :
  ∃ m lines,
    run_policy_and_backtest Sample.model "RELIANCE" Sample.prepared
      = (Return (Some m, Lines lines), Sample.prepared) ∧
    Final_Signal m = BUY ∧
    (λ line, App.log_box (render Cases.fmt Cases.fmt Cases.str_Z line)) <$> lines
    = match Final_Signal m with
      | BUY => [App.success; App.info; App.success]
      | SELL => [App.error;
                 if (Chng30d m / lit 100 <? lit 0)%float
                 then App.error else App.info]
      | HOLD => [App.info; App.info]
      end.
Proof.
  eexists _, _.
  split; [vm_compute; reflexivity|]. split; [reflexivity|].
  eapply (log_boxes_by_signal Cases.fmt Cases.fmt Cases.str_Z
            Cases_fmt_numeric Cases_fmt_numeric Cases_str_Z_numeric
            Sample.model "RELIANCE" Sample.prepared).
  vm_compute; reflexivity.
Defined.

(** ** A preparation that fails half way *)

Lemma for_each_step_Raise df (step : string → DataFrame → res DataFrame)
    (body : string → M unit) :
  (∀ col h d, h !! df = Some d →
     match step col d with
     | Return d1 => body col h = (Return (), <[df := d1]> h)
     | Raise e => body col h = (Raise e, h)
     end) →
  ∀ pre c post h d d1 e,
    h !! df = Some d →
    fold_cols step pre d = Return d1 →
    step c d1 = Raise e →
    for_each (pre ++ c :: post) body h = (Raise e, <[df := d1]> h).
Proof.
  intros Hstep pre c post.
  induction pre as [|col pre IH]; intros h d d1 e Hd Hpre Hc; simpl in *.
  - injection Hpre as ->. specialize (Hstep c h d1 Hd). rewrite Hc in Hstep.
    erewrite bind_Raise by exact Hstep. by rewrite insert_id.
  - specialize (Hstep col h d Hd).
    destruct (step col d) as [d0|e0]; simpl in Hpre; [|done].
    erewrite bind_Return by exact Hstep.
    rewrite (IH (<[df := d0]> h) d0 d1 e (lookup_insert_eq _ _ _) Hpre Hc).
    by rewrite insert_insert_eq.
Qed.

Section Partial.

Variable py_float : string → option float64.

(** X21.  [_process_data] is not all or nothing.  When the conversion of
    the price columns stops at a column [c] (missing, or with a cell that
    is not a number), the exception of [c] is raised and the frame is left
    with the columns before [c] converted: it holds what the conversion of
    those columns alone gives, so each of them is numeric, and no derived
    column has been added by the call. *)
Theorem failed_preparation_keeps_the_columns_converted_so_far
    df h d pre c post d1 e :
  h !! df = Some d →
  cols_to_clean = pre ++ c :: post →
  clean_cols py_float pre d = Return d1 →
  clean_col py_float c d1 = Raise e →
  _process_data py_float df h = (Raise e, <[df := d1]> h) ∧
  (∀ p, p ∈ pre → ∃ xs, columns d1 !! p = Some (SFloat xs)) ∧
  (∀ k, k ∉ pre → columns d1 !! k = columns d !! k).
Proof.
  intros Hd Hcols Hpre Hc. split; [|split].
  - unfold _process_data. rewrite Hcols.
    match goal with |- context [for_each _ ?b] =>
      pose proof (for_each_step_Raise df (clean_col py_float) b) as Hloop end.
    lapply Hloop; clear Hloop.
    2:{ intros col h0 d0 Hd0.
        unfold clean_col, getitem, lift, setitem, mbind, M_bind, res_bind,
          mret, M_ret, res_ret.
        rewrite (lookup_total_correct _ _ _ Hd0).
        destruct (columns d0 !! col) as [[vs|ss]|]; simpl; [| |done].
        - by rewrite insert_id.
        - destruct (astype_float _ _) as [xs|e']; simpl; [|done].
          by rewrite (lookup_total_correct _ _ _ Hd0). }
    intros Hloop.
    erewrite bind_Raise; [done|]. by eapply Hloop.
  - intros p Hp.
    destruct (clean_cols_spec _ _ _ _ Hpre) as (_ & Hin & _). by apply Hin.
  - intros k Hk.
    destruct (clean_cols_spec _ _ _ _ Hpre) as (_ & _ & Hout & _). by apply Hout.
Qed.

End Partial.

Lemma failed_preparation_keeps_the_columns_converted_so_far_witness :
  let h := Cases.at_1 Cases.bad_price in
  let d1 := set_col "Open" (SFloat [lit 1000; lit 20]) Cases.bad_price in
  h !! 1%positive = Some Cases.bad_price ∧
  cols_to_clean = ["Open"] ++ "High" :: ["Low"; "LTP"; "Turnover (crs.)"; "52w H"; "52w L"] ∧
  clean_cols Sample.parse_decimal ["Open"] Cases.bad_price = Return d1 ∧
  clean_col Sample.parse_decimal "High" d1 = Raise ValueError ∧
  _process_data Sample.parse_decimal 1%positive h
    = (Raise ValueError, <[1%positive := d1]> h) ∧
  (∀ p, p ∈ ["Open"] → ∃ xs, columns d1 !! p = Some (SFloat xs)) ∧
  (∀ k, k ∉ ["Open"] → columns d1 !! k = columns Cases.bad_price !! k).
Proof.
  intros h d1.
  assert (h !! 1%positive = Some Cases.bad_price) as Hd by reflexivity.
  assert (cols_to_clean
          = ["Open"] ++ "High" :: ["Low"; "LTP"; "Turnover (crs.)"; "52w H"; "52w L"])
    as Hcols by reflexivity.
  assert (clean_cols Sample.parse_decimal ["Open"] Cases.bad_price = Return d1)
    as Hpre by float_eq.
  assert (clean_col Sample.parse_decimal "High" d1 = Raise ValueError)
    as Hc by (vm_compute; reflexivity).
  split; [exact Hd|]. split; [exact Hcols|]. split; [exact Hpre|].
  split; [exact Hc|].
  exact (failed_preparation_keeps_the_columns_converted_so_far
           Sample.parse_decimal 1%positive h Cases.bad_price
           ["Open"] "High" ["Low"; "LTP"; "Turnover (crs.)"; "52w H"; "52w L"]
           d1 ValueError Hd Hcols Hpre Hc).
Defined.

Lemma buy_at_price_zero_raises_witness :
  let h := Cases.at_1 (Cases.one_row (lit 0) (lit 10) (lit 40) (lit 1)) in
  let self := Cases.model_1 (lit 1000) in
  columns (h !!! df self) !! "Symbol" = Some (SObj ["ACME"]) ∧
  index_of "ACME" ["ACME"] = Some 0 ∧
  num (row_at (h !!! df self) 0) "365 d % chng" = Return (lit 40) ∧
  num (row_at (h !!! df self) 0) "30 d % chng" = Return (lit 10) ∧
  num (row_at (h !!! df self) 0) "Volume_Ratio" = Return (lit 1) ∧
  item (row_at (h !!! df self) 0) "LTP" = Return (CNum (lit 0)) ∧
  is_zero (lit 0) = true ∧
  (lit 0.5 * lit 40 / lit 100 + lit 0.3 * lit 10 / lit 100 + lit 0.2 * (lit 1 - lit 1)
     >? lit 0.15)%float = true ∧
  (initial_capital self * lit 0.2)%float = lit 200 ∧
  run_policy_and_backtest self "ACME" h = (Raise OverflowError, h) ∧
  let allocation := (initial_capital self * lit 0.2)%float in
  run_policy_and_backtest self "ACME" h
  = (Raise (if is_zero allocation || is_nan allocation
            then ValueError else OverflowError), h).
Proof.
  intros h self.
  repeat (split; [vm_compute; reflexivity|]).
  apply (buy_at_price_zero_raises self "ACME" h ["ACME"] 0
           (lit 40) (lit 10) (lit 1) (lit 0));
    vm_compute; reflexivity.
Defined.

Lemma buy_profit_has_the_sign_of_the_change_witness :
  let h := Cases.at_1 (Cases.one_row (lit 30) (lit (-10)) (lit 50) (lit 1)) in
  let self := Cases.model_1 (lit 1000) in
  ∃ m log,
    run_policy_and_backtest self "ACME" h = (Return (Some m, log), h) ∧
    Final_Signal m = BUY ∧
    (initial_capital self >? lit 0)%float = true ∧
    is_finite (initial_capital self) = true ∧
    LTP m = CNum (lit 30) ∧
    (lit 30 >? lit 0)%float = true ∧ is_finite (lit 30) = true ∧
    is_finite (Chng30d m) = true ∧
    (Chng30d m <? lit 0)%float = true ∧
    Simulated_Profit m = lit (-18) ∧
    ((Chng30d m <? lit 0)%float = true →
     (Simulated_Profit m >? lit 0)%float = false ∧ Sharpe_Ratio m = lit 0) ∧
    ((Chng30d m >? lit 0)%float = true →
     (Simulated_Profit m <? lit 0)%float = false).
Proof.
  intros h self. eexists _, _.
  split; [vm_compute; reflexivity|].
  repeat (split; [vm_compute; reflexivity|]).
  eapply (buy_profit_has_the_sign_of_the_change self "ACME" h _ _ h (lit 30));
    vm_compute; reflexivity.
Defined.

Lemma sell_log_depends_on_the_return_alone_witness :
  ∃ m log,
    run_policy_and_backtest Sample.model "TCS" Sample.prepared
      = (Return (Some m, log), Sample.prepared) ∧
    Final_Signal m = SELL ∧
    (Chng30d m / lit 100 <? lit 0)%float = true ∧
    log = Lines [
      Triggered SELL (DRL_Score m);
      Text (if (Chng30d m / lit 100 <? lit 0)%float
            then "Decision: HOLD CASH. **Risk Managed: Avoided a potential loss**."
            else "Decision: HOLD CASH (Neutral Stance).")] ∧
    ((Chng30d m / lit 100 <? lit 0)%float = true →
     (Chng30d m <? lit 0)%float = true).
Proof.
  eexists _, _.
  split; [vm_compute; reflexivity|].
  split; [reflexivity|]. split; [vm_compute; reflexivity|].
  eapply (sell_log_depends_on_the_return_alone Sample.model "TCS" Sample.prepared);
    [vm_compute; reflexivity | reflexivity].
Defined.

(** A SELL on a change so small that a hundredth of it is -0: the change
    is below 0, its hundredth is not, and the log says "Neutral
    Stance". *)
Example sell_on_a_vanishing_change :
  let tiny := S754_finite true 2 (-1074) in
  let h := Cases.at_1 (Cases.one_row (lit 30) tiny (lit (-50)) (lit 1)) in
  ∃ m log,
    run_policy_and_backtest (Cases.model_1 (lit 1000)) "ACME" h
      = (Return (Some m, log), h) ∧
    log = Lines [Triggered SELL (DRL_Score m);
                 Text "Decision: HOLD CASH (Neutral Stance)."] ∧
    Final_Signal m = SELL ∧
    (Chng30d m <? lit 0)%float = true ∧
    (Chng30d m / lit 100)%float = S754_zero true.
Proof.
  intros tiny h. eexists _, _. split; [vm_compute; reflexivity|].
  repeat split; vm_compute; reflexivity.
Qed.

(** ** app.py: the features shown with a decision *)

Lemma iat_is_Some (s : Series) (i : nat) : i < size s → is_Some (iat s i).
Proof.
  intros Hi. destruct s as [l|l]; simpl in *;
    destruct (lookup_lt_is_Some_2 l i Hi) as [x ->]; by eexists.
Qed.

Lemma num_item row key x : num row key = Return x → item row key = Return (CNum x).
Proof.
  unfold num, item. destruct (row !! key) as [[y|y]|]; simpl; [|done..].
  by intros [= ->].
Qed.

Section Features.

Variable py_float : string → option float64.

(** X22.  After a decision has returned metrics, the feature panel of
    [main] does not fail, for a model built by the constructor over a
    well-formed frame: the row it reads has all six features.  The price
    and the two changes shown are those of the metrics, the momentum
    score and the volume ratio are numbers, and the volume ratio shown is
    the one the score was computed from. *)
Theorem feature_panel_shows_the_row_of_the_decision
    stock_df cap h0 d self h symbol m log h' :
  h0 !! stock_df = Some d →
  well_formed d →
  __init__ py_float stock_df cap h0 = (Return self, h) →
  run_policy_and_backtest self symbol h = (Return (Some m, log), h') →
  ∃ volume vr ms,
    App.features (df self) symbol h'
    = (Return [("LTP", LTP m);
               ("30 d % chng", CNum (Chng30d m));
               ("365 d % chng", CNum (Chng365d m));
               ("Volume (lacs)", volume);
               ("Volume_Ratio", CNum vr);
               ("Momentum_Score", CNum ms)], h') ∧
    DRL_Score m
    = (lit 0.5 * Chng365d m / lit 100 + lit 0.3 * Chng30d m / lit 100
       + lit 0.2 * (vr - lit 1))%float.
Proof.
  intros Hd Hwf Hinit Hrun.
  destruct (__init___inv _ _ _ _ _ _ _ Hd Hinit) as [-> (d' & Hprep & ->)].
  apply run_policy_and_backtest_inv in Hrun
    as (-> & syms & i & ltp & c365 & c30 & vr & lines & Hsyms & Hi & H365 & H30 &
        Hvr & Hltp & _ & _ & <- & <- & <- & Hscore & _).
  simpl in *.
  rewrite lookup_total_insert_eq in Hsyms, H365, H30, Hvr, Hltp.
  pose proof (prepare_well_formed py_float d d' Hwf Hprep) as Hwf'.
  destruct (prepare_spec _ _ _ Hprep)
    as (d1 & mss & v & mu & r & Hclean & Hms & Hv & _ & _ & Hd').
  assert (i < index d') as Hlt.
  { rewrite <-(Hwf' "Symbol" (SObj syms) Hsyms). simpl.
    apply index_of_lookup in Hi. by eapply lookup_lt_Some. }
  assert (∃ volume, item (row_at d' i) "Volume (lacs)" = Return volume)
    as [volume Hvol].
  { assert (columns d' !! "Volume (lacs)" = Some v) as Hv'.
    { rewrite (prepare_other py_float d d' _ Hprep); [done|compute_done|done..]. }
    destruct (iat_is_Some v i) as [x Hx]; [by rewrite (Hwf' _ _ Hv')|].
    exists x. unfold item. by rewrite row_at_lookup, Hv'; simpl; rewrite Hx. }
  assert (∃ ms, item (row_at d' i) "Momentum_Score" = Return (CNum ms))
    as [ms Hmom].
  { assert (columns d' !! "Momentum_Score" = Some (SFloat mss)) as Hm'.
    { rewrite Hd'. simpl. rewrite lookup_insert_ne by done.
      apply lookup_insert_eq. }
    destruct (iat_is_Some (SFloat mss) i) as [x Hx]; [by rewrite (Hwf' _ _ Hm')|].
    simpl in Hx. destruct (mss !! i) as [y|] eqn:Hy; [|done].
    exists y. unfold item. rewrite row_at_lookup, Hm'. simpl. by rewrite Hy. }
  exists volume, vr, ms. split; [|done].
  unfold App.features, mbind, M_bind, mret, M_ret, getitem, deref, lift.
  rewrite lookup_total_insert_eq, Hsyms. simpl. rewrite Hi. simpl.
  rewrite Hltp, (num_item _ _ _ H30), (num_item _ _ _ H365), Hvol,
    (num_item _ _ _ Hvr), Hmom.
  done.
Qed.

End Features.

Lemma feature_panel_shows_the_row_of_the_decision_witness :
  let h0 := Cases.at_1 Cases.quiet in
  let self := Cases.model_1 (lit 1000) in
  let h := (__init__ Sample.parse_decimal 1%positive (lit 1000) h0).2 in
  ∃ m log,
    h0 !! 1%positive = Some Cases.quiet ∧
    well_formed Cases.quiet ∧
    __init__ Sample.parse_decimal 1%positive (lit 1000) h0 = (Return self, h) ∧
    run_policy_and_backtest self "ACME" h = (Return (Some m, log), h) ∧
    ∃ volume vr ms,
      App.features (df self) "ACME" h
      = (Return [("LTP", LTP m);
                 ("30 d % chng", CNum (Chng30d m));
                 ("365 d % chng", CNum (Chng365d m));
                 ("Volume (lacs)", volume);
                 ("Volume_Ratio", CNum vr);
                 ("Momentum_Score", CNum ms)], h) ∧
      DRL_Score m
      = (lit 0.5 * Chng365d m / lit 100 + lit 0.3 * Chng30d m / lit 100
         + lit 0.2 * (vr - lit 1))%float.
Proof.
  intros h0 self h.
  assert (map_Forall (λ _ s, size s = 1) (columns Cases.quiet)) as Hwf
    by (apply (bool_decide_unpack _); vm_compute; exact I).
  assert (__init__ Sample.parse_decimal 1%positive (lit 1000) h0 = (Return self, h))
    as Hinit by (vm_compute; reflexivity).
  eexists _, _.
  split; [reflexivity|]. split; [exact Hwf|]. split; [exact Hinit|].
  split; [vm_compute; reflexivity|].
  eapply (feature_panel_shows_the_row_of_the_decision Sample.parse_decimal
            1%positive (lit 1000) h0 Cases.quiet self h "ACME");
    [reflexivity | exact Hwf | exact Hinit | vm_compute; reflexivity].
Defined.
